(** * harper-chatbot-services: a shallow embedding of the RAG pipeline

    The development follows the Python sources module by module:

    - [Py]             the fragment of the Python runtime the code relies on
                       (strings, paths, slices, the stable sort, exceptions);
    - [Store]          the Supabase tables and bucket, the external services,
                       and the monad in which the request handlers run;
    - [Config]         app/utils/config.py;
    - [TextProcessing] app/utils/text_processing.py;
    - [Chat]           app/routes/chat.py;
    - [ProcessChunks]  app/routes/process_chunks.py: the upload, the
                       ingestion and the background task;
    - [Embeddings]     app/routes/embeddings.py: the ad hoc search;
    - [Properties]     the predicates the statements are written with;
    - [Scenario]       concrete services, stores and requests.

    The theorems follow, grouped by flow: the chunker, the query flow, the
    ingestion flow, the ad hoc search.

    Python [str] values are modelled as [string]: sequences of code points
    below 256.  Python [int] is [Z].  JSON numbers that are only compared and
    passed along (similarity scores, embedding coordinates) are [Q]; the
    numbers computed by numpy in the ad hoc search stay abstract. *)

From Stdlib Require Import List String Ascii ZArith QArith Lia Bool.
From Stdlib Require Import Sorted Permutation.
From Stdlib Require Import DecimalString.
Import ListNotations.
Local Open Scope string_scope.
Local Open Scope Z_scope.

(* ===================================================================== *)
(** * The Python runtime *)
(* ===================================================================== *)

Module Py.

(** [len(s)] *)
Definition len (s : string) : Z := Z.of_nat (String.length s).

(** The line feed written [\n] in the sources. *)
Definition nl : string := String (ascii_of_nat 10) EmptyString.

(** [c.isspace()] for a code point below 256: TAB..CR, FS..US, space,
    NEL and the no-break space. *)
Definition isspace (c : ascii) : bool :=
  let n := nat_of_ascii c in
  ((9 <=? n) && (n <=? 13) || (28 <=? n) && (n <=? 32)
   || (n =? 133) || (n =? 160))%nat.

Fixpoint lstrip (s : string) : string :=
  match s with
  | String c r => if isspace c then lstrip r else s
  | EmptyString => EmptyString
  end.

Fixpoint rstrip (s : string) : string :=
  match s with
  | String c r =>
      match rstrip r with
      | EmptyString => if isspace c then EmptyString else String c EmptyString
      | r' => String c r'
      end
  | EmptyString => EmptyString
  end.

(** [s.strip()] *)
Definition strip (s : string) : string := rstrip (lstrip s).

(** [s.split(sep)] for a one-character separator: [n] separators give
    [n + 1] pieces, and the empty string gives one empty piece. *)
Fixpoint split (sep : ascii) (s : string) : list string :=
  match s with
  | EmptyString => [EmptyString]
  | String c r =>
      if Ascii.eqb c sep then EmptyString :: split sep r
      else match split sep r with
           | p :: ps => String c p :: ps
           | [] => [String c EmptyString]
           end
  end.

(** Truth value of a string: [if s:] *)
Definition truthy (s : string) : bool := negb (String.eqb s "").

(** Truth value of an [Optional[str]]: [None] and [""] are false. *)
Definition truthy_opt (o : option string) : bool :=
  match o with
  | Some s => truthy s
  | None => false
  end.

(** Truth value of a list: [if l:] *)
Definition nonempty {A : Type} (l : list A) : bool :=
  match l with
  | [] => false
  | _ :: _ => true
  end.

(** [x in l] for a list of strings. *)
Definition contains (l : list string) (x : string) : bool :=
  existsb (String.eqb x) l.

(** [s.startswith(p)] *)
Definition startswith (s p : string) : bool := String.prefix p s.

(** [c.lower()] for a code point below 256. *)
Definition lower_char (c : ascii) : ascii :=
  let n := nat_of_ascii c in
  if ((65 <=? n) && (n <=? 90)
      || (192 <=? n) && (n <=? 222) && negb (n =? 215))%nat
  then ascii_of_nat (n + 32)
  else c.

Fixpoint lower (s : string) : string :=
  match s with
  | String c r => String (lower_char c) (lower r)
  | EmptyString => EmptyString
  end.

(** [s[1:]] *)
Definition tail (s : string) : string :=
  match s with
  | String _ r => r
  | EmptyString => EmptyString
  end.

(** [os.path.basename(p)]: what follows the last slash. *)
Definition basename (p : string) : string := last (split "/" p) "".

(** [os.path.splitext(p)[1]]: the last dot of the base name and what
    follows it, unless only dots come before it. *)
Definition splitext_ext (p : string) : string :=
  let pieces := split "." (basename p) in
  if existsb truthy (removelast pieces)
  then "." ++ last pieces ""
  else "".

(** [l[:limit]] where [limit] is an [Optional[int]]. *)
Definition slice_to {A : Type} (limit : option Z) (l : list A) : list A :=
  match limit with
  | None => l
  | Some n =>
      if n <? 0 then firstn (Z.to_nat (Z.of_nat (List.length l) + n)) l
      else firstn (Z.to_nat n) l
  end.

(** [l.sort(key=..., reverse=True)]: Python's sort is stable, also when
    reversed, so elements with equal keys keep their order.  [ltb x y] is
    [key(x) < key(y)]. *)
Section Sort.
Context {A : Type} (ltb : A -> A -> bool).

Fixpoint insert_desc (x : A) (l : list A) : list A :=
  match l with
  | [] => [x]
  | y :: r => if ltb x y then y :: insert_desc x r else x :: l
  end.

Definition sort_desc (l : list A) : list A :=
  fold_right insert_desc [] l.

End Sort.

(** Exceptions.  All of them derive from [Exception], so every
    [except Exception] clause catches every one of them. *)
Inductive exn : Type :=
| HTTPException (status_code : Z) (detail : string)
| NameError (msg : string)
| ImportError (msg : string)
| TypeError (msg : string)
| ValueError (msg : string)
| ServiceError (msg : string).   (* raised by a client library *)

End Py.

Import Py.

(* ===================================================================== *)
(** * The store, the external services and the handler monad *)
(* ===================================================================== *)

Module Store.

(** An embedding: the JSON array of numbers the embedding service returns.
    [json.dumps] and [json.loads] carry it to and from the [chunks] table
    unchanged, so a row holds the sequence itself. *)
Definition Embedding : Type := list Q.

(** A row of the [media] table. *)
Module MediaRow.
Record t : Type := make {
  id : string;
  name : string;
  original_name : string;
  media_type : string;
  owner_id : string;
  storage_path : string
}.
End MediaRow.

(** A row of the [media_workspace_mapping] table. *)
Module MappingRow.
Record t : Type := make {
  media_id : string;
  workspace_id : string
}.
End MappingRow.

(** A row of the [chunks] table. *)
Module ChunkRow.
Record t : Type := make {
  id : string;
  chunk_text : string;
  media_id : string;
  page_number : option Z;
  embedding : Embedding
}.
End ChunkRow.

(** A row returned by the [match_chunks] remote procedure: a chunk, its
    similarity to the query and, when the procedure joins it, the media
    record it belongs to ([chunk.get('media', {}).get('name', ...)]). *)
Module Match.
Record media_info : Type := make_media { name : option string }.
Record t : Type := make {
  id : string;
  media_id : string;
  media : option media_info;
  chunk_text : string;
  similarity : Q
}.
End Match.

Record Database : Type := {
  chunks : list ChunkRow.t;
  media : list MediaRow.t;
  media_workspace_mapping : list MappingRow.t
}.

(** Calls that leave the process, in the order they are made. *)
Inductive call : Type :=
| EmbeddingsCreate (model input : string)
| ChatCompletionsCreate (model : string) (messages : list (string * string))
| Rpc (fn : string) (query_embedding : Embedding)
      (match_threshold : Q) (match_count : Z)
| Select (table columns : string) (eq : option (string * string))
| Insert (table : string)
| StorageUpload (path : string)
| StorageDownload (path : string)
| DoclingConvert (suffix : string)
| TempFileWrite (suffix : string)
| TempFileUnlink.

(** What a handler can see and change: the database, the storage bucket
    (path to content), the number of identifiers drawn so far, the calls
    made and the lines printed. *)
Record World : Type := {
  database : Database;
  storage : list (string * string);
  drawn : nat;
  calls : list call;
  stdout : list string
}.

(** The collaborators the code consumes and does not implement. *)
Record Services : Type := {
  (* openai_client.embeddings.create(model, input).data[0].embedding *)
  embeddings_create : string -> string -> exn + Embedding;
  (* openai_client.chat.completions.create(model, messages)
       .choices[0].message.content *)
  chat_completions_create : string -> list (string * string) -> exn + string;
  (* the match_chunks function defined in the database *)
  match_chunks : Database -> Embedding -> Q -> Z -> exn + list Match.t;
  (* DocumentConverter().convert(path).document.export_to_markdown(), on a
     file with the given content and suffix *)
  docling_convert : string -> string -> exn + string;
  (* the n-th identifier drawn from uuid4 or generated by the database *)
  uuid4 : nat -> string;
  (* str(e) for an HTTPException *)
  http_exception_str : Z -> string -> string
}.

(** [str(e)] *)
Definition str (svc : Services) (e : exn) : string :=
  match e with
  | HTTPException status_code detail => http_exception_str svc status_code detail
  | NameError msg | ImportError msg | TypeError msg | ValueError msg
  | ServiceError msg => msg
  end.

(** ** The handler monad: state that survives a raised exception *)

Definition M (A : Type) : Type := World -> World * (exn + A).

Definition ret {A : Type} (a : A) : M A := fun w => (w, inr a).

Definition raise {A : Type} (e : exn) : M A := fun w => (w, inl e).

Definition bind {A B : Type} (m : M A) (k : A -> M B) : M B :=
  fun w =>
    match m w with
    | (w', inr a) => k a w'
    | (w', inl e) => (w', inl e)
    end.

(** [try: m  except Exception as e: handler(e)] *)
Definition try_except {A : Type} (m : M A) (handler : exn -> M A) : M A :=
  fun w =>
    match m w with
    | (w', inl e) => handler e w'
    | r => r
    end.

(** [try: m  finally: cleanup] where [cleanup] does not raise. *)
Definition try_finally {A : Type} (m : M A) (cleanup : World -> World) : M A :=
  fun w => let '(w', r) := m w in (cleanup w', r).

Definition lift {A : Type} (r : exn + A) : M A := fun w => (w, r).

Definition get_world : M World := fun w => (w, inr w).

Definition modify (f : World -> World) : M unit := fun w => (f w, inr tt).

Definition log_call (c : call) (w : World) : World :=
  {| database := database w; storage := storage w; drawn := drawn w;
     calls := calls w ++ [c]; stdout := stdout w |}.

Definition log_print (line : string) (w : World) : World :=
  {| database := database w; storage := storage w; drawn := drawn w;
     calls := calls w; stdout := stdout w ++ [line] |}.

Definition set_database (db : Database) (w : World) : World :=
  {| database := db; storage := storage w; drawn := drawn w;
     calls := calls w; stdout := stdout w |}.

Definition set_storage (st : list (string * string)) (w : World) : World :=
  {| database := database w; storage := st; drawn := drawn w;
     calls := calls w; stdout := stdout w |}.

Definition set_mapping (rows : list MappingRow.t) (w : World) : World :=
  set_database {| chunks := chunks (database w); media := media (database w);
                  media_workspace_mapping := rows |} w.

Definition emit (c : call) : M unit := modify (log_call c).

Definition print (line : string) : M unit := modify (log_print line).

(** Draw the next identifier. *)
Definition fresh_id (svc : Services) : M string :=
  fun w =>
    ({| database := database w; storage := storage w; drawn := S (drawn w);
        calls := calls w; stdout := stdout w |},
     inr (uuid4 svc (drawn w))).

Declare Scope py_scope.
Delimit Scope py_scope with py.
Notation "x <- m ;; k" := (bind m (fun x => k))
  (at level 61, m at next level, right associativity) : py_scope.
Notation "m ;; k" := (bind m (fun _ => k))
  (at level 61, right associativity) : py_scope.

(** [if not cond: raise e] *)
Definition require (cond : bool) (e : exn) : M unit :=
  if cond then ret tt else raise e.

(** ** The storage bucket *)

Fixpoint lookup (path : string) (st : list (string * string)) : option string :=
  match st with
  | [] => None
  | (p, content) :: r => if String.eqb p path then Some content else lookup path r
  end.

(** [supabase.storage.from_(bucket).download(path)]: the content, or an
    error of the storage client when there is no object at the path. *)
Definition storage_download (path : string) : M string :=
  (emit (StorageDownload path) ;;
   w <- get_world ;;
   match lookup path (storage w) with
   | Some content => ret content
   | None => raise (ServiceError "Object not found")
   end)%py.

(** [supabase.storage.from_(bucket).upload(path, content)]: without the
    upsert option an object already at the path is an error. *)
Definition storage_upload (path content : string) : M unit :=
  (emit (StorageUpload path) ;;
   w <- get_world ;;
   match lookup path (storage w) with
   | Some _ => raise (ServiceError "The resource already exists")
   | None => modify (set_storage (storage w ++ [(path, content)]))
   end)%py.

(** ** The tables *)

(** [table('media').select('id, media_type, owner_id').eq('name', n)] *)
Definition select_media_by_name (n : string) : M (list MediaRow.t) :=
  (emit (Select "media" "id, media_type, owner_id" (Some ("name", n))) ;;
   w <- get_world ;;
   ret (filter (fun r => String.eqb (MediaRow.name r) n) (media (database w))))%py.

(** [from_("media_workspace_mapping").select("media_id")
      .eq("workspace_id", ws)] *)
Definition select_workspace_media (ws : string) : M (list MappingRow.t) :=
  (emit (Select "media_workspace_mapping" "media_id" (Some ("workspace_id", ws))) ;;
   w <- get_world ;;
   ret (filter (fun r => String.eqb (MappingRow.workspace_id r) ws)
          (media_workspace_mapping (database w))))%py.

(** [table('chunks').select('*')] *)
Definition select_all_chunks : M (list ChunkRow.t) :=
  (emit (Select "chunks" "*" None) ;;
   w <- get_world ;;
   ret (chunks (database w)))%py.

(** [table('media').insert(media_data)]: the stored row, with the
    identifier the database gave it. *)
Definition insert_media (svc : Services)
    (name original_name media_type owner_id storage_path : string)
  : M (list MediaRow.t) :=
  (emit (Insert "media") ;;
   new_id <- fresh_id svc ;;
   w <- get_world ;;
   let row := MediaRow.make new_id name original_name media_type owner_id
                storage_path in
   modify (set_database
             {| chunks := chunks (database w);
                media := media (database w) ++ [row];
                media_workspace_mapping := media_workspace_mapping (database w) |}) ;;
   ret [row])%py.

(** [table('media_workspace_mapping').insert(mapping_data)] *)
Definition insert_mapping (media_id workspace_id : string)
  : M (list MappingRow.t) :=
  (emit (Insert "media_workspace_mapping") ;;
   w <- get_world ;;
   let row := MappingRow.make media_id workspace_id in
   modify (set_database
             {| chunks := chunks (database w);
                media := media (database w);
                media_workspace_mapping :=
                  media_workspace_mapping (database w) ++ [row] |}) ;;
   ret [row])%py.

(** [table('chunks').insert(chunk_data)] *)
Definition insert_chunk (svc : Services) (chunk_text media_id : string)
    (page_number : option Z) (embedding : Embedding) : M (list ChunkRow.t) :=
  (emit (Insert "chunks") ;;
   new_id <- fresh_id svc ;;
   w <- get_world ;;
   let row := ChunkRow.make new_id chunk_text media_id page_number embedding in
   modify (set_database
             {| chunks := chunks (database w) ++ [row];
                media := media (database w);
                media_workspace_mapping := media_workspace_mapping (database w) |}) ;;
   ret [row])%py.

(** ** Reads and removals of the maintenance handlers

    The log has no entry for a removal: a removal shows in the store. *)

(** [table('chunks').select('*').eq('media_id', m)] *)
Definition select_chunks_by_media (m : string) : M (list ChunkRow.t) :=
  (emit (Select "chunks" "*" (Some ("media_id", m))) ;;
   w <- get_world ;;
   ret (filter (fun r => String.eqb (ChunkRow.media_id r) m)
          (chunks (database w))))%py.

(** [table('media').select('*').eq('id', m).single()]: the one row with
    the identifier; no row, or more than one, is an error of the client. *)
Definition select_media_single (m : string) : M MediaRow.t :=
  (emit (Select "media" "*" (Some ("id", m))) ;;
   w <- get_world ;;
   match filter (fun r => String.eqb (MediaRow.id r) m) (media (database w)) with
   | [row] => ret row
   | _ => raise (ServiceError
                   "JSON object requested, multiple (or no) rows returned")
   end)%py.

(** [supabase.storage.from_(bucket).remove([path])]: the object goes if it
    is there; a path without object is no error. *)
Definition storage_remove (path : string) : M unit :=
  (w <- get_world ;;
   modify (set_storage
             (filter (fun entry => negb (String.eqb (fst entry) path))
                (storage w))))%py.

(** [table('chunks').delete().eq('media_id', m)] *)
Definition delete_chunks_by_media (m : string) : M unit :=
  (w <- get_world ;;
   modify (set_database
             {| chunks := filter (fun r => negb (String.eqb (ChunkRow.media_id r) m))
                            (chunks (database w));
                media := media (database w);
                media_workspace_mapping := media_workspace_mapping (database w) |}))%py.

(** [table('media').delete().eq('id', m)] *)
Definition delete_media_by_id (m : string) : M unit :=
  (w <- get_world ;;
   modify (set_database
             {| chunks := chunks (database w);
                media := filter (fun r => negb (String.eqb (MediaRow.id r) m))
                           (media (database w));
                media_workspace_mapping := media_workspace_mapping (database w) |}))%py.

End Store.

Import Store.
Local Open Scope py_scope.

(* ===================================================================== *)
(** * app/utils/config.py *)
(* ===================================================================== *)

Module Config.

(** The names the module binds: its two imports and its five settings. *)
Definition names : list string :=
  ["os"; "load_dotenv"; "OPENAI_API_KEY"; "SUPABASE_URL"; "SUPABASE_ANON_KEY";
   "TEMP_FILES_DIR"; "STORAGE_BUCKET"].

(** [from app.utils.config import name], executed inside a function.  The
    message of the error is Python's, without the path of the file. *)
Definition import_from (name : string) : M unit :=
  if contains names name
  then ret tt
  else raise (ImportError ("cannot import name '" ++ name ++
                           "' from 'app.utils.config'")).

End Config.

(* ===================================================================== *)
(** * app/utils/text_processing.py *)
(* ===================================================================== *)

Module TextProcessing.

(** A chunk: [{"text": ..., "metadata": {}}] *)
Module Chunk.
Record t : Type := make {
  text : string;
  metadata : list (string * string)
}.
End Chunk.

(** The loop of [split_into_chunks] over the sentences still to come,
    with the two variables it updates. *)
Fixpoint accumulate (chunk_size : Z) (sentences : list string)
    (chunks : list Chunk.t) (current_chunk : string)
  : list Chunk.t * string :=
  match sentences with
  | [] => (chunks, current_chunk)
  | sentence :: rest =>
      if len current_chunk + len sentence >? chunk_size
      then accumulate chunk_size rest
             (chunks ++ [Chunk.make (strip current_chunk) []]) sentence
      else accumulate chunk_size rest chunks (current_chunk ++ sentence ++ ".")
  end.

(** [split_into_chunks(text, chunk_size)].  Nothing in the [try] block
    raises on a [str] and an [int], so the [except] clause, which would
    return the whole text as one chunk, is never entered. *)
Definition split_into_chunks (text : string) (chunk_size : Z) : list Chunk.t :=
  let sentences := split "." text in
  let '(chunks, current_chunk) := accumulate chunk_size sentences [] "" in
  if truthy current_chunk
  then chunks ++ [Chunk.make (strip current_chunk) []]
  else chunks.

(** The default [chunk_size]. *)
Definition default_chunk_size : Z := 1000.

Record TableData : Type := {
  table_id : string;
  table_content : string;
  table_html : option string
}.

Record FigureData : Type := {
  figure_id : string;
  figure_caption : option string;
  figure_content : option string
}.

Record DocumentStructure : Type := {
  headings : list string;
  sections : list (list (string * string))
}.

(** The dictionary [process_document_with_docling] returns; [error] is the
    key that is present only after a failure. *)
Module Doc.
Record t : Type := make {
  error : option string;
  text : string;
  tables : list TableData;
  figures : list FigureData;
  structure : DocumentStructure
}.
End Doc.

(** A file on the local disk, named in the source by its path. *)
Record File : Type := {
  suffix : string;
  content : string
}.

Section WithServices.
Context (svc : Services).

(** [process_document_with_docling(file_path, file_type)] *)
Definition process_document_with_docling (file_path : File) (file_type : string)
  : M Doc.t :=
  try_except
    (emit (DoclingConvert (suffix file_path)) ;;
     content <- lift (docling_convert svc (content file_path) (suffix file_path)) ;;
     ret (Doc.make None content [] [] {| headings := []; sections := [] |}))
    (fun e =>
       print ("Error processing document with Docling: " ++ str svc e) ;;
       ret (Doc.make (Some ("Failed to process document: " ++ str svc e)) ""
              [] [] {| headings := []; sections := [] |})).

(** [create_embedding(text, openai_client)] *)
Definition create_embedding (text : string) : M Embedding :=
  emit (EmbeddingsCreate "text-embedding-3-small" text) ;;
  lift (embeddings_create svc "text-embedding-3-small" text).

(** [background_process_chunks(file_name)] of this module.  Neither
    [ProcessChunkRequest] nor [process_chunks] is defined or imported in
    text_processing.py, so the first line of the [try] block raises a
    [NameError], which the handler prints and drops. *)
Definition background_process_chunks (file_name : string) : M unit :=
  try_except
    (raise (NameError "name 'ProcessChunkRequest' is not defined"))
    (fun e => print ("Error in background processing: " ++ str svc e)).

End WithServices.

End TextProcessing.

(* ===================================================================== *)
(** * app/routes/chat.py *)
(* ===================================================================== *)

Module Chat.

Import TextProcessing.

Record ChatRequest : Type := {
  query : string;
  workspace_id : string;
  user_id : option string;
  max_context_chunks : option Z
}.

(** The default of [max_context_chunks]. *)
Definition default_max_context_chunks : option Z := Some 10.

Record MediaContext : Type := {
  media_id : string;
  media_name : string;
  chunk_id : string;
  chunk_text : string;
  similarity : Q
}.

Record ChatResponse : Type := {
  answer : string;
  context_sources : list MediaContext
}.

(** The part of the incoming request the handler reads:
    [req.headers.get('Authorization')]. *)
Record Request : Type := {
  authorization : option string
}.

(** The instruction of the calls made without context. *)
Definition generic_prompt : string := "You are a helpful assistant.".

(** The instruction of the call made with context: the triple-quoted
    literal of the source, whose continuation lines keep their indentation. *)
Definition system_prompt : string :=
  let indent := "        " in
  "You are a helpful assistant that answers questions based on the provided context." ++ nl ++
  indent ++ "If the context doesn't contain relevant information to answer the question, state that you don't have enough information." ++ nl ++
  indent ++ "Cite the source of your information when possible. Try to use as much information as possible to answer the question. You can use knowledge " ++ nl ++
  indent ++ "outside of the context if needed. The context is a collection of documents that are related to the question." ++ nl ++
  indent.

Definition user_prompt (context query : string) : string :=
  "Context information:" ++ nl ++ context ++ nl ++ nl ++
  "Question: " ++ query ++ nl ++ nl ++
  "Please provide a helpful response based on the context.".

(** [key(x) < key(y)] for [key=lambda x: x['similarity']] *)
Definition similarity_ltb (x y : Match.t) : bool :=
  negb (Qle_bool (Match.similarity y) (Match.similarity x)).

(** The workspace filter: the comprehension that keeps the results whose
    media is in the workspace, and the sort that follows it. *)
Definition filter_workspace (workspace_media_ids : list string)
    (vector_search_result : list Match.t) : list Match.t :=
  let filtered_results :=
    filter (fun result => contains workspace_media_ids (Match.media_id result))
      vector_search_result in
  sort_desc similarity_ltb filtered_results.

(** [chunk.get('media', {}).get('name', 'Unknown')] *)
Definition media_name_of (chunk : Match.t) : string :=
  match Match.media chunk with
  | Some m =>
      match Match.name m with
      | Some n => n
      | None => "Unknown"
      end
  | None => "Unknown"
  end.

(** One turn of the loop that renders the context and collects the
    sources. *)
Definition add_chunk (acc : string * list MediaContext) (chunk : Match.t)
  : string * list MediaContext :=
  let '(context, context_sources) := acc in
  let media_name := media_name_of chunk in
  (context ++ nl ++ nl ++ "Context from " ++ media_name ++ ":" ++ nl ++
     Match.chunk_text chunk ++ nl,
   (context_sources ++
      [{| media_id := Match.media_id chunk;
          media_name := media_name;
          chunk_id := Match.id chunk;
          chunk_text := Match.chunk_text chunk;
          similarity := Match.similarity chunk |}])%list).

(** The context assembler: the top chunks, their rendering and their
    sources.  The bound is the literal 10 of the source. *)
Definition assemble (filtered_results : list Match.t)
  : string * list MediaContext :=
  let max_chunks := Nat.min 10 (List.length filtered_results) in
  let top_chunks := firstn max_chunks filtered_results in
  fold_left add_chunk top_chunks ("", []).

Section WithServices.
Context (svc : Services).

(** [match_documents(query_embedding, match_threshold=0.35, match_count=20)] *)
Definition match_documents (query_embedding : Embedding)
    (match_threshold : Q) (match_count : Z) : M (list Match.t) :=
  emit (Rpc "match_chunks" query_embedding match_threshold match_count) ;;
  w <- get_world ;;
  lift (match_chunks svc (database w) query_embedding match_threshold match_count).

(** One generation call: [openai_client.chat.completions.create] with the
    model ["gpt-4"] and a system and a user message. *)
Definition complete (system user : string) : M string :=
  let messages := [("system", system); ("user", user)] in
  emit (ChatCompletionsCreate "gpt-4" messages) ;;
  lift (chat_completions_create svc "gpt-4" messages).

(** [chat(request, req)].  The lines that print the Python representation
    of intermediate results are left out. *)
Definition chat (request : ChatRequest) (req : Request) : M ChatResponse :=
  try_except
    (let user_id := user_id request in
     (if negb (truthy_opt user_id)
      then
        match authorization req with
        | Some auth_header =>
            if truthy auth_header && startswith auth_header "Bearer "
            then raise (HTTPException 401 "User ID extraction not implemented")
            else raise (HTTPException 401 "Authentication required")
        | None => raise (HTTPException 401 "Authentication required")
        end
      else ret tt) ;;
     query_embedding <- create_embedding svc (query request) ;;
     vector_search_result <- match_documents query_embedding (35 # 100) 20 ;;
     if negb (nonempty vector_search_result)
     then
       completion <- complete generic_prompt (query request) ;;
       ret {| answer := completion; context_sources := [] |}
     else
       workspace_media_result <- select_workspace_media (workspace_id request) ;;
       let workspace_media_ids :=
         if nonempty workspace_media_result
         then map MappingRow.media_id workspace_media_result
         else [] in
       if negb (nonempty workspace_media_ids)
       then
         completion <- complete generic_prompt (query request) ;;
         ret {| answer := completion; context_sources := [] |}
       else
         let filtered_results :=
           filter_workspace workspace_media_ids vector_search_result in
         let '(context, context_sources) := assemble filtered_results in
         completion <- complete system_prompt (user_prompt context (query request)) ;;
         ret {| answer := completion; context_sources := context_sources |})
    (fun e => raise (HTTPException 500 (str svc e))).

End WithServices.

End Chat.

(* ===================================================================== *)
(** * app/routes/process_chunks.py *)
(* ===================================================================== *)

Module ProcessChunks.

Import TextProcessing.

Record ChunkMetadata : Type := {
  meta_headings : list string;
  meta_page_number : option Z;
  meta_content_type : option string
}.

(** [ChunkMetadata()] *)
Definition empty_metadata : ChunkMetadata :=
  {| meta_headings := []; meta_page_number := None; meta_content_type := None |}.

Record ProcessChunkRequest : Type := {
  fileName : string
}.

Record ChunkResult : Type := {
  chunkId : string;
  pageNumber : option Z;
  metadata : ChunkMetadata
}.

Module Response.
Record t : Type := make {
  success : bool;
  chunks : Z;
  results : list ChunkResult;
  tables : list TableData;
  figures : list FigureData;
  structure : DocumentStructure;
  note : string
}.
End Response.

(** The uploaded file: [file.filename] and what [file.read()] returns. *)
Record UploadFile : Type := {
  filename : string;
  body : string
}.

(** The dictionary [upload_file] returns. *)
Record UploadResult : Type := {
  upload_success : bool;
  upload_fileName : string;
  upload_mediaId : string
}.

(** [BackgroundTasks]: the tasks added so far, run in order after the
    response is sent. *)
Definition BackgroundTasks : Type := list (M unit).

Section WithServices.
Context (svc : Services).

(** The loop of [process_chunks] over the chunks, with the list it
    appends to. *)
Fixpoint store_chunks (media_id : string) (todo : list Chunk.t)
    (results : list ChunkResult) : M (list ChunkResult) :=
  match todo with
  | [] => ret results
  | chunk :: rest =>
      embedding <- create_embedding svc (Chunk.text chunk) ;;
      chunk_result <- insert_chunk svc (Chunk.text chunk) media_id None embedding ;;
      match chunk_result with
      | [] => raise (HTTPException 500 "Failed to store chunk")
      | row :: _ =>
          let chunk_id := ChunkRow.id row in
          store_chunks media_id rest
            (results ++ [{| chunkId := chunk_id; pageNumber := None;
                            metadata := empty_metadata |}])%list
      end
  end.

(** [process_chunks(request)] *)
Definition process_chunks (request : ProcessChunkRequest) : M Response.t :=
  try_except
    (require (truthy (fileName request))
       (HTTPException 400 "File name is required") ;;
     file_result <-
       try_except (storage_download (fileName request))
         (fun e => raise (HTTPException 404
                            ("Failed to download file: " ++ str svc e))) ;;
     require (truthy file_result)
       (HTTPException 404 "File not found in storage") ;;
     let file_name_only := basename (fileName request) in
     media_result <- select_media_by_name file_name_only ;;
     match media_result with
     | [] => raise (HTTPException 404 "Media record not found")
     | media_data :: _ =>
         let media_id := MediaRow.id media_data in
         let file_ext := tail (lower (splitext_ext (fileName request))) in
         print ("Processing file: " ++ fileName request) ;;
         emit (TempFileWrite ("." ++ file_ext)) ;;
         let temp_file_path :=
           {| suffix := "." ++ file_ext; content := file_result |} in
         try_finally
           (doc_result <- process_document_with_docling svc temp_file_path file_ext ;;
            match Doc.error doc_result with
            | Some err => raise (HTTPException 500 err)
            | None =>
                let chunks := split_into_chunks (Doc.text doc_result)
                                default_chunk_size in
                results <- store_chunks media_id chunks [] ;;
                ret (Response.make true (Z.of_nat (List.length results)) results
                       (Doc.tables doc_result) (Doc.figures doc_result)
                       (Doc.structure doc_result)
                       "Document processed successfully with structure preservation")
            end)
           (fun w =>
              log_call TempFileUnlink
                (log_print ("Finished processing file: " ++ fileName request) w))
     end)
    (fun e => raise (HTTPException 500 (str svc e))).

(** [background_process_chunks(file_name)] of this module: the function
    the name denotes inside [upload_file]. *)
Definition background_process_chunks (file_name : string) : M unit :=
  let process_chunk_request := {| fileName := file_name |} in
  _ <- process_chunks process_chunk_request ;;
  ret tt.

(** [upload_file(background_tasks, file, owner_id, workspace_id)]: the
    result comes with the task list as [add_task] left it. *)
Definition upload_file (background_tasks : BackgroundTasks) (file : UploadFile)
    (owner_id workspace_id : string) : M (BackgroundTasks * UploadResult) :=
  try_except
    (require (truthy owner_id) (HTTPException 401 "User not authenticated") ;;
     let file_ext := splitext_ext (filename file) in
     uuid <- fresh_id svc ;;
     let unique_filename := uuid ++ file_ext in
     let content := body file in
     let storage_path := "uploads/" ++ unique_filename in
     storage_upload storage_path content ;;
     media_result <- insert_media svc unique_filename (filename file) "file"
                       owner_id storage_path ;;
     match media_result with
     | [] => raise (HTTPException 500 "Failed to create media record")
     | media_row :: _ =>
         let media_id := MediaRow.id media_row in
         mapping_result <- insert_mapping media_id workspace_id ;;
         require (nonempty mapping_result)
           (HTTPException 500 "Failed to create media workspace mapping record") ;;
         let background_tasks :=
           (background_tasks ++ [background_process_chunks storage_path])%list in
         ret (background_tasks,
              {| upload_success := true; upload_fileName := storage_path;
                 upload_mediaId := media_id |})
     end)
    (fun e =>
       print ("Error uploading file: " ++ str svc e) ;;
       raise (HTTPException 500 (str svc e))).

End WithServices.

(** Running the tasks after the response: each in turn, an error of one
    ending the run. *)
Fixpoint run_tasks (tasks : BackgroundTasks) : M unit :=
  match tasks with
  | [] => ret tt
  | task :: rest => task ;; run_tasks rest
  end.

(** An entry of the list [get_chunks] returns.  The rows this service
    writes carry no metadata, so [chunk.get("metadata")] is false and the
    entry gets the empty dictionary; the embedding is read back from its
    JSON text, or is the empty list when the column is empty. *)
Module Processed.
Record t : Type := make {
  id : string;
  text : string;
  page_number : option Z;
  metadata : list (string * string);
  embedding : Embedding
}.
End Processed.

(** One turn of the loop of [get_chunks]. *)
Definition processed_chunk (chunk : ChunkRow.t) : Processed.t :=
  Processed.make (ChunkRow.id chunk) (ChunkRow.chunk_text chunk)
    (ChunkRow.page_number chunk) [] (ChunkRow.embedding chunk).

(** The dictionary [delete_media] returns. *)
Record DeleteResult : Type := {
  delete_success : bool;
  delete_message : string
}.

Section Maintenance.
Context (svc : Services).

(** [get_chunks(media_id)]: the value under the key ["chunks"]. *)
Definition get_chunks (media_id : string) : M (list Processed.t) :=
  try_except
    (result <- select_chunks_by_media media_id ;;
     if negb (nonempty result)
     then ret []
     else ret (map processed_chunk result))
    (fun e => raise (HTTPException 500 (str svc e))).

(** [delete_media(media_id)].  The row [single()] returns is a non-empty
    dictionary, so the test [if not media_result.data] that follows it in
    the source never fires. *)
Definition delete_media (media_id : string) : M DeleteResult :=
  try_except
    (media_result <- select_media_single media_id ;;
     let storage_path := MediaRow.storage_path media_result in
     try_except (storage_remove storage_path)
       (fun e =>
          print ("Warning: Failed to delete file from storage: " ++ str svc e)) ;;
     delete_chunks_by_media media_id ;;
     delete_media_by_id media_id ;;
     ret {| delete_success := true;
            delete_message := "Media and associated data deleted successfully" |})
    (fun e => raise (HTTPException 500 (str svc e))).

End Maintenance.

End ProcessChunks.

(* ===================================================================== *)
(** * app/routes/embeddings.py *)
(* ===================================================================== *)

Module Embeddings.

Import TextProcessing.

(** What the search asks of numpy and of float comparison. *)
Record Numpy : Type := {
  float64 : Type;
  (* np.dot(a, b); arrays of different lengths are a ValueError *)
  dot : Embedding -> Embedding -> exn + float64;
  (* np.linalg.norm(a) *)
  norm : Embedding -> float64;
  mul : float64 -> float64 -> float64;
  div : float64 -> float64 -> float64;
  (* x >= t for a threshold read from the request *)
  ge : float64 -> Q -> bool;
  (* x < y, the comparison the sort uses *)
  lt : float64 -> float64 -> bool
}.

Record SearchQuery : Type := {
  query : string;
  limit : option Z;
  similarity_threshold : option Q
}.

(** The defaults of [limit] and [similarity_threshold]. *)
Definition default_limit : option Z := Some 5.
Definition default_similarity_threshold : option Q := Some (35 # 100).

Record SearchResult (np : Numpy) : Type := {
  chunk_id : string;
  chunk_text : string;
  similarity : float64 np;
  media_id : string;
  page_number : option Z
}.
Arguments chunk_id {np} _.
Arguments chunk_text {np} _.
Arguments similarity {np} _.
Arguments media_id {np} _.
Arguments page_number {np} _.

Section WithServices.
Context (svc : Services) (np : Numpy).

(** [np.dot(q, c) / (np.linalg.norm(q) * np.linalg.norm(c))] *)
Definition cosine_similarity (q c : Embedding) : exn + float64 np :=
  match dot np q c with
  | inr d => inr (div np d (mul np (norm np q) (norm np c)))
  | inl e => inl e
  end.

(** The loop of [search_embeddings] over the stored chunks. *)
Fixpoint scan (query_embedding : Embedding) (threshold : option Q)
    (todo : list ChunkRow.t) (results : list (SearchResult np))
  : M (list (SearchResult np)) :=
  match todo with
  | [] => ret results
  | chunk :: rest =>
      let chunk_embedding := ChunkRow.embedding chunk in
      similarity <- lift (cosine_similarity query_embedding chunk_embedding) ;;
      match threshold with
      | None =>
          raise (TypeError
            "'>=' not supported between instances of 'numpy.float64' and 'NoneType'")
      | Some t =>
          if ge np similarity t
          then scan query_embedding threshold rest
                 (results ++ [{| chunk_id := ChunkRow.id chunk;
                                 chunk_text := ChunkRow.chunk_text chunk;
                                 similarity := similarity;
                                 media_id := ChunkRow.media_id chunk;
                                 page_number := ChunkRow.page_number chunk |}])%list
          else scan query_embedding threshold rest results
      end
  end.

(** The statements of [search_embeddings] that follow its import of the
    store client: read all the chunks, score, sort and cut. *)
Definition search_chunks (query : SearchQuery) (query_embedding : Embedding)
  : M (list (SearchResult np)) :=
  chunks_result <- select_all_chunks ;;
  if negb (nonempty chunks_result)
  then ret []
  else
    results <- scan query_embedding (similarity_threshold query)
                 chunks_result [] ;;
    let results :=
      sort_desc (fun x y => lt np (similarity x) (similarity y)) results in
    ret (slice_to (limit query) results).

(** [search_embeddings(query)].  The store client is imported inside the
    [try] block, by [from app.utils.config import supabase]. *)
Definition search_embeddings (query : SearchQuery) : M (list (SearchResult np)) :=
  try_except
    (query_embedding <- create_embedding svc (Embeddings.query query) ;;
     Config.import_from "supabase" ;;
     search_chunks query query_embedding)
    (fun e => raise (HTTPException 500 (str svc e))).

End WithServices.

(** The dictionary [batch_embed_text] returns. *)
Record BatchResult : Type := {
  batch_success : bool;
  batch_embeddings : list Embedding
}.

Section Batch.
Context (svc : Services).

(** The loop of [batch_embed_text] over the texts, with the list it
    appends to. *)
Fixpoint embed_all (texts : list string) (embeddings : list Embedding)
  : M (list Embedding) :=
  match texts with
  | [] => ret embeddings
  | text :: rest =>
      embedding <- create_embedding svc text ;;
      embed_all rest (embeddings ++ [embedding])%list
  end.

(** [batch_embed_text(texts)] *)
Definition batch_embed_text (texts : list string) : M BatchResult :=
  try_except
    (embeddings <- embed_all texts [] ;;
     ret {| batch_success := true; batch_embeddings := embeddings |})
    (fun e => raise (HTTPException 500 (str svc e))).

End Batch.

End Embeddings.

(* ===================================================================== *)
(** * The vocabulary of the properties *)
(* ===================================================================== *)

Module Properties.

Import TextProcessing.

(** The sentences of a text: what lies between its terminators, the empty
    pieces that doubled or trailing terminators leave being dropped. *)
Definition sentences (text : string) : list string :=
  filter truthy (split "." text).

(** The sentences of the chunks, in the order of emission. *)
Definition chunk_sentences (chunks : list Chunk.t) : list string :=
  flat_map (fun c => sentences (Chunk.text c)) chunks.

(** A chunk respects the soft limit [L] over the sentences [all] when it
    has at most [L + 1] characters or is one sentence longer than [L]. *)
Definition within_soft_limit (L : Z) (all : list string) (c : Chunk.t) : Prop :=
  len (Chunk.text c) <= L + 1
  \/ exists s, In s all /\ Chunk.text c = strip s /\ L < len s.

(** The same for the running buffer of the chunker. *)
Definition buffer_ok (L : Z) (all : list string) (current_chunk : string) : Prop :=
  len current_chunk <= L + 1 \/ (In current_chunk all /\ L < len current_chunk).

(** The media that are members of a workspace. *)
Definition workspace_members (db : Database) (ws : string) : list string :=
  map MappingRow.media_id
    (filter (fun r => String.eqb (MappingRow.workspace_id r) ws)
       (media_workspace_mapping db)).

(** The media records with a given name. *)
Definition media_named (db : Database) (n : string) : list MediaRow.t :=
  filter (fun r => String.eqb (MediaRow.name r) n) (media db).

(** The messages of a generation call without context. *)
Definition fallback_messages (q : string) : list (string * string) :=
  [("system", Chat.generic_prompt); ("user", q)].

(** The messages of a generation call over a rendered context. *)
Definition grounded_messages (context q : string) : list (string * string) :=
  [("system", Chat.system_prompt); ("user", Chat.user_prompt context q)].

(** [a] may stand before [b] in a list in descending similarity order. *)
Definition by_similarity_desc (a b : Match.t) : Prop :=
  (Match.similarity b <= Match.similarity a)%Q.

(** What a finished run of [upload_file] left in the task list, and the
    dictionary it returned. *)
Definition registered_tasks
    (r : World * (exn + ProcessChunks.BackgroundTasks * ProcessChunks.UploadResult))
  : ProcessChunks.BackgroundTasks :=
  match snd r with
  | inr (tasks, _) => tasks
  | inl _ => []
  end.

Definition upload_result
    (r : World * (exn + ProcessChunks.BackgroundTasks * ProcessChunks.UploadResult))
  : ProcessChunks.UploadResult :=
  match snd r with
  | inr (_, result) => result
  | inl _ =>
      {| ProcessChunks.upload_success := false;
         ProcessChunks.upload_fileName := "";
         ProcessChunks.upload_mediaId := "" |}
  end.

(** ** The chunker *)

(** The sentences put back together, each followed by its terminator. *)
Fixpoint terminate_all (pieces : list string) : string :=
  match pieces with
  | [] => ""
  | s :: r => s ++ "." ++ terminate_all r
  end.

(** A character that is neither a terminator nor whitespace. *)
Definition is_letter (c : ascii) : bool :=
  negb (Ascii.eqb c "." || isspace c).

(** What a text says: its characters, terminators and whitespace left out. *)
Definition letters (s : string) : list ascii :=
  filter is_letter (list_ascii_of_string s).

Definition chunk_letters (chunks : list Chunk.t) : list ascii :=
  flat_map (fun c => letters (Chunk.text c)) chunks.

(** ** The query flow *)

(** The citation of a candidate. *)
Definition cite (chunk : Match.t) : Chat.MediaContext :=
  {| Chat.media_id := Match.media_id chunk;
     Chat.media_name := Chat.media_name_of chunk;
     Chat.chunk_id := Match.id chunk;
     Chat.chunk_text := Match.chunk_text chunk;
     Chat.similarity := Match.similarity chunk |}.

(** The labelled block of a candidate in the context. *)
Definition block (chunk : Match.t) : string :=
  nl ++ nl ++ "Context from " ++ Chat.media_name_of chunk ++ ":" ++ nl ++
  Match.chunk_text chunk ++ nl.

(** The blocks of the candidates, one after the other. *)
Definition render (chunks : list Match.t) : string :=
  fold_right (fun chunk rest => block chunk ++ rest) "" chunks.

(** [a] may stand before [b] in a list of sources in descending
    similarity order. *)
Definition sources_descending (a b : Chat.MediaContext) : Prop :=
  (Chat.similarity b <= Chat.similarity a)%Q.

(** ** The ingestion flow *)

(** The entry of the response for a stored row. *)
Definition result_of_row (row : ChunkRow.t) : ProcessChunks.ChunkResult :=
  {| ProcessChunks.chunkId := ChunkRow.id row;
     ProcessChunks.pageNumber := None;
     ProcessChunks.metadata := ProcessChunks.empty_metadata |}.

(** The row [process_chunks] stores for a chunk in the world [w]. *)
Definition new_row (svc : Services) (w : World) (chunk : Chunk.t)
    (media_id : string) (e : Embedding) : ChunkRow.t :=
  ChunkRow.make (uuid4 svc (drawn w)) (Chunk.text chunk) media_id None e.

(** The world after one turn of the storing loop: the text embedded and
    the row inserted. *)
Definition after_insert (w : World) (row : ChunkRow.t) : World :=
  {| database :=
       {| chunks := chunks (database w) ++ [row];
          media := media (database w);
          media_workspace_mapping := media_workspace_mapping (database w) |};
     storage := storage w;
     drawn := S (drawn w);
     calls := calls w
              ++ [EmbeddingsCreate "text-embedding-3-small" (ChunkRow.chunk_text row);
                  Insert "chunks"];
     stdout := stdout w |}.

(** [w'] is [w] with the chunk rows [rows] appended and nothing else of
    the store changed. *)
Definition appends_chunks (w w' : World) (rows : list ChunkRow.t) : Prop :=
  chunks (database w') = (chunks (database w) ++ rows)%list
  /\ media (database w') = media (database w)
  /\ media_workspace_mapping (database w') = media_workspace_mapping (database w)
  /\ storage w' = storage w.

Definition is_temp_call (c : call) : bool :=
  match c with
  | TempFileWrite _ | TempFileUnlink => true
  | _ => false
  end.

(** The suffix of the temporary file of a request. *)
Definition file_suffix (request : ProcessChunks.ProcessChunkRequest) : string :=
  "." ++ tail (lower (splitext_ext (ProcessChunks.fileName request))).

(** The response of an ingestion that stored [rows]. *)
Definition ingested (rows : list ChunkRow.t) : ProcessChunks.Response.t :=
  ProcessChunks.Response.make true (Z.of_nat (List.length rows))
    (map result_of_row rows) [] [] {| headings := []; sections := [] |}
    "Document processed successfully with structure preservation".

(** [c in s] *)
Fixpoint has_char (c : ascii) (s : string) : bool :=
  match s with
  | EmptyString => false
  | String x r => Ascii.eqb x c || has_char c r
  end.

End Properties.

(* ===================================================================== *)
(** * Concrete services, stores and requests *)
(* ===================================================================== *)

Module Scenario.

Import TextProcessing.

(** [str(e)] of an [HTTPException] as Starlette prints it. *)
Definition http_str (status_code : Z) (detail : string) : string :=
  NilZero.string_of_int (Z.to_int status_code) ++ ": " ++ detail.

(** Services whose search finds [found] and whose converter answers
    [converted]. *)
Definition services (found : list Match.t) (converted : exn + string)
  : Services :=
  {| embeddings_create := fun _ _ => inr [1 # 1; 0 # 1];
     chat_completions_create := fun _ _ => inr "An answer.";
     match_chunks := fun _ _ _ _ => inr found;
     docling_convert := fun _ _ => converted;
     uuid4 := fun n => "uuid-" ++ NilZero.string_of_uint (Nat.to_uint n);
     http_exception_str := http_str |}.

Definition world_of (db : Database) (st : list (string * string)) : World :=
  {| database := db; storage := st; drawn := 0; calls := []; stdout := [] |}.

Definition empty_world : World :=
  world_of {| chunks := []; media := []; media_workspace_mapping := [] |} [].

(** A workspace ["ws-1"] whose only member is ["media-1"]. *)
Definition one_member_world : World :=
  world_of
    {| chunks := []; media := [];
       media_workspace_mapping := [MappingRow.make "media-1" "ws-1"] |} [].

Definition question (max_context_chunks : option Z) : Chat.ChatRequest :=
  {| Chat.query := "What is the refund policy?";
     Chat.workspace_id := "ws-1";
     Chat.user_id := Some "user-1";
     Chat.max_context_chunks := max_context_chunks |}.

Definition no_headers : Chat.Request := {| Chat.authorization := None |}.

Definition policy : option Match.media_info :=
  Some (Match.make_media (Some "policy.pdf")).

Definition refund_match : Match.t :=
  Match.make "chunk-1" "media-1" policy
    "Refunds are processed within 30 days" (81 # 100).

Definition shipping_match : Match.t :=
  Match.make "chunk-2" "media-1" policy
    "Orders ship within 2 days" (50 # 100).

(** A match that belongs to a media of no workspace. *)
Definition stray_match : Match.t :=
  Match.make "chunk-9" "media-2" None "Unrelated text" (50 # 100).

Definition report : ProcessChunks.UploadFile :=
  {| ProcessChunks.filename := "Report.PDF"; ProcessChunks.body := "%PDF" |}.

(** Services whose document converter fails. *)
Definition failing_converter : Services :=
  services [] (inl (ServiceError "conversion failed")).

Definition upload_run
  : World * (exn + ProcessChunks.BackgroundTasks * ProcessChunks.UploadResult) :=
  ProcessChunks.upload_file failing_converter [] report "owner-1" "ws-1"
    empty_world.

(** A numeric kernel over the rationals: exact products and quotients, and
    a square root rounded down to the precision of the denominator. *)
Fixpoint dot_product (a b : Embedding) : exn + Q :=
  match a, b with
  | [], [] => inr (0 # 1)
  | x :: a', y :: b' =>
      match dot_product a' b' with
      | inr d => inr (x * y + d)%Q
      | inl e => inl e
      end
  | _, _ => inl (ValueError "shapes not aligned")
  end.

Definition sqrt_down (x : Q) : Q :=
  Z.sqrt (Qnum x * Z.pos (Qden x)) # Qden x.

Definition norm2 (a : Embedding) : Q :=
  sqrt_down (fold_right (fun x acc => (x * x + acc)%Q) (0 # 1) a).

Definition rational_numpy : Embeddings.Numpy :=
  {| Embeddings.float64 := Q;
     Embeddings.dot := dot_product;
     Embeddings.norm := norm2;
     Embeddings.mul := Qmult;
     Embeddings.div := Qdiv;
     Embeddings.ge := fun x t => Qle_bool t x;
     Embeddings.lt := fun x y => negb (Qle_bool y x) |}.

Definition stored_chunk : ChunkRow.t :=
  ChunkRow.make "chunk-1" "Refunds are processed within 30 days" "media-1"
    None [3 # 5; 4 # 5].

(** Two stores with the same chunks: in the first the media of the chunk
    is in no workspace, in the second it is a member of ["ws-2"]. *)
Definition unmapped_store : World :=
  world_of {| chunks := [stored_chunk]; media := [];
              media_workspace_mapping := [] |} [].

Definition mapped_store : World :=
  set_mapping [MappingRow.make "media-1" "ws-2"] unmapped_store.

Definition search_query : Embeddings.SearchQuery :=
  {| Embeddings.query := "refund";
     Embeddings.limit := Embeddings.default_limit;
     Embeddings.similarity_threshold := Embeddings.default_similarity_threshold |}.

(** A store that holds an uploaded policy: the file, its media record,
    its membership of ["ws-1"] and one chunk ingested earlier. *)
Definition policy_row : MediaRow.t :=
  MediaRow.make "media-1" "policy.pdf" "Policy.pdf" "file" "owner-1"
    "uploads/policy.pdf".

Definition policy_world : World :=
  world_of
    {| chunks := [stored_chunk]; media := [policy_row];
       media_workspace_mapping := [MappingRow.make "media-1" "ws-1"] |}
    [("uploads/policy.pdf", "%PDF")].

Definition policy_text : string :=
  "Refunds are processed within 30 days. Orders ship within 2 days".

(** Services whose converter reads the policy and whose search finds its
    two chunks. *)
Definition converting : Services :=
  services [refund_match; shipping_match] (inr policy_text).

Definition policy_request : ProcessChunks.ProcessChunkRequest :=
  {| ProcessChunks.fileName := "uploads/policy.pdf" |}.

(** Services whose embedding service is down. *)
Definition embedding_down : Services :=
  {| embeddings_create := fun _ _ => inl (ServiceError "rate limit exceeded");
     chat_completions_create := chat_completions_create converting;
     match_chunks := match_chunks converting;
     docling_convert := docling_convert converting;
     uuid4 := uuid4 converting;
     http_exception_str := http_str |}.

(** A request that names no user. *)
Definition anonymous : Chat.ChatRequest :=
  {| Chat.query := "What is the refund policy?";
     Chat.workspace_id := "ws-1";
     Chat.user_id := None;
     Chat.max_context_chunks := Chat.default_max_context_chunks |}.

(** The upload of the report with a converter that works. *)
Definition good_upload_run
  : World * (exn + ProcessChunks.BackgroundTasks * ProcessChunks.UploadResult) :=
  ProcessChunks.upload_file converting [] report "owner-1" "ws-1" empty_world.

End Scenario.

(** Unfold the handler monad and project the worlds it builds. *)
Ltac run :=
  cbv beta iota zeta delta
    [bind try_except try_finally ret raise lift emit print modify get_world
     require fresh_id];
  cbn [fst snd negb database storage calls stdout drawn log_call log_print
       set_database set_storage nonempty].

Import Properties.

(* ===================================================================== *)
(** * The chunker *)
(* ===================================================================== *)

Section Chunker.
Import TextProcessing.

Lemma length_lstrip (s : string) :
  (String.length (lstrip s) <= String.length s)%nat.
Proof.
  induction s as [|c s IH]; simpl.
  - lia.
  - destruct (isspace c); simpl; lia.
Qed.

Lemma length_rstrip (s : string) :
  (String.length (rstrip s) <= String.length s)%nat.
Proof.
  induction s as [|c s IH]; simpl.
  - lia.
  - destruct (rstrip s) as [|c' r'].
    + destruct (isspace c); simpl; lia.
    + simpl in *. lia.
Qed.

Lemma len_strip (s : string) : len (strip s) <= len s.
Proof.
  unfold len, strip.
  pose proof (length_rstrip (lstrip s)). pose proof (length_lstrip s). lia.
Qed.

Lemma len_app (a b : string) : len (a ++ b) = len a + len b.
Proof.
  unfold len. induction a as [|c a IH]; simpl String.length.
  - simpl. lia.
  - lia.
Qed.

Lemma buffer_ok_emit (L : Z) (all : list string) (current_chunk : string) :
  buffer_ok L all current_chunk ->
  within_soft_limit L all (Chunk.make (strip current_chunk) []).
Proof.
  intros [H|[Hin Hlen]].
  - left. simpl. pose proof (len_strip current_chunk). lia.
  - right. exists current_chunk. auto.
Qed.

(** The loop keeps every emitted chunk and the buffer within the soft
    limit: a buffer grows only while it and the next sentence fit in [L],
    the terminator being the one character that is not counted. *)
Lemma accumulate_soft_limit (L : Z) (all sentences : list string) :
  forall chunks current_chunk,
    incl sentences all ->
    Forall (within_soft_limit L all) chunks ->
    buffer_ok L all current_chunk ->
    Forall (within_soft_limit L all)
      (fst (accumulate L sentences chunks current_chunk))
    /\ buffer_ok L all (snd (accumulate L sentences chunks current_chunk)).
Proof.
  induction sentences as [|sentence rest IH];
    intros chunks current_chunk Hincl Hchunks Hcur.
  - simpl. auto.
  - simpl.
    assert (Hrest : incl rest all) by (intros x Hx; apply Hincl; now right).
    assert (Hs : In sentence all) by (apply Hincl; now left).
    destruct (len current_chunk + len sentence >? L) eqn:Hcmp.
    + apply IH; trivial.
      * apply Forall_app. split; trivial.
        constructor; [|constructor]. now apply buffer_ok_emit.
      * destruct (Z_le_gt_dec (len sentence) (L + 1)).
        -- now left.
        -- right. split; trivial. lia.
    + apply IH; trivial.
      left. rewrite !len_app. change (len ".") with 1. lia.
Qed.

(** X1: what the chunker does guarantee about sizes.  For a limit
    [L >= 0] every chunk has at most [L + 1] characters, unless it is a
    single sentence of more than [L] characters. *)
Lemma split_into_chunks_soft_limit (text : string) (L : Z) (c : Chunk.t) :
  0 <= L ->
  In c (split_into_chunks text L) ->
  within_soft_limit L (split "." text) c.
Proof.
  intros HL Hin. unfold split_into_chunks in Hin.
  destruct (accumulate_soft_limit L (split "." text) (split "." text) [] "")
    as [Hchunks Hcur].
  - apply incl_refl.
  - constructor.
  - left. change (len "") with 0. lia.
  - destruct (accumulate L (split "." text) [] "") as [chunks current_chunk].
    simpl in Hchunks, Hcur. rewrite Forall_forall in Hchunks.
    destruct (truthy current_chunk).
    + apply in_app_or in Hin. destruct Hin as [Hin|[<-|[]]].
      * now apply Hchunks.
      * now apply buffer_ok_emit.
    + now apply Hchunks.
Qed.

(** C4, as stated, fails: with the default chunk size the empty text gives
    one chunk, but its text is not the empty string. *)
Lemma split_empty_text_counterexample :
  ~ (exists c, split_into_chunks "" default_chunk_size = [c]
               /\ Chunk.text c = "").
Proof.
  intros [c [Hsplit Htext]].
  vm_compute in Hsplit. injection Hsplit as <-. discriminate Htext.
Qed.

(** C4, amended: for the empty text and any chunk size the chunker returns
    exactly one chunk and raises nothing; the text of that chunk is the
    terminator ["."] for every chunk size [>= 0], and the empty string only
    for a negative chunk size. *)
Theorem split_empty_text (chunk_size : Z) :
  split_into_chunks "" chunk_size =
  [Chunk.make (if chunk_size <? 0 then "" else ".") []].
Proof.
  unfold split_into_chunks. simpl split. cbn [accumulate].
  change (len "") with 0.
  destruct (chunk_size <? 0) eqn:H.
  - replace (0 + 0 >? chunk_size) with true by (symmetry; apply Z.gtb_lt; lia).
    reflexivity.
  - replace (0 + 0 >? chunk_size) with false.
    + reflexivity.
    + symmetry. rewrite Z.gtb_ltb. apply Z.ltb_ge. apply Z.ltb_ge in H. lia.
Qed.

(** C5, where the code departs from it.  On ["abc"] with chunk size 2 the
    first sentence does not fit, the loop emits the still empty buffer, and
    a chunk that is empty after trimming comes out of a non-empty text.  On
    ["aaa.bb.c"] with chunk size 4 the sentence that opens the second chunk
    is stored without its terminator, so it fuses with the next one and the
    sentences of the chunks are not those of the text. *)
Theorem split_emits_empty_chunk_and_fuses_sentences :
  (split_into_chunks "abc" 2 = [Chunk.make "" []; Chunk.make "abc" []]
   /\ exists c, In c (split_into_chunks "abc" 2) /\ strip (Chunk.text c) = "")
  /\ (split_into_chunks "aaa.bb.c" 4 = [Chunk.make "aaa." []; Chunk.make "bbc." []]
      /\ sentences "aaa.bb.c" = ["aaa"; "bb"; "c"]
      /\ chunk_sentences (split_into_chunks "aaa.bb.c" 4) = ["aaa"; "bbc"]).
Proof.
  split.
  - split; [reflexivity|].
    exists (Chunk.make "" []). split; [now left | reflexivity].
  - repeat split; reflexivity.
Qed.

(** C6, where the code departs from it.  On ["ab.cd"] with limit 5 the two
    sentences, neither longer than the limit, are emitted as one chunk of 6
    characters: the test that guards the buffer does not count the
    terminator it appends. *)
Theorem split_exceeds_limit_by_terminator :
  split_into_chunks "ab.cd" 5 = [Chunk.make "ab.cd." []]
  /\ len "ab.cd." = 6
  /\ sentences "ab.cd." = ["ab"; "cd"]
  /\ Forall (fun s => len s <= 5) (split "." "ab.cd").
Proof.
  repeat split; try reflexivity.
  repeat constructor; vm_compute; discriminate.
Qed.

End Chunker.

(* ===================================================================== *)
(** * The query flow *)
(* ===================================================================== *)

Section Query.
Import TextProcessing Chat.
Context (svc : Services).

Lemma filter_all {A : Type} (f : A -> bool) (l : list A) :
  (forall x, In x l -> f x = true) -> filter f l = l.
Proof.
  induction l as [|a l IH]; intros H; simpl.
  - reflexivity.
  - rewrite (H a (or_introl eq_refl)). f_equal. apply IH.
    intros x Hx. apply H. now right.
Qed.

Lemma filter_none {A : Type} (f : A -> bool) (l : list A) :
  (forall x, In x l -> f x = false) -> filter f l = [].
Proof.
  induction l as [|a l IH]; intros H; simpl.
  - reflexivity.
  - rewrite (H a (or_introl eq_refl)). apply IH.
    intros x Hx. apply H. now right.
Qed.

Lemma map_nonempty {A B : Type} (f : A -> B) (l : list A) :
  (if nonempty l then map f l else []) = map f l.
Proof. destruct l; reflexivity. Qed.

Lemma filter_workspace_none (ids : list string) (found : list Match.t) :
  (forall c, In c found -> contains ids (Match.media_id c) = false) ->
  filter_workspace ids found = [].
Proof.
  intros H. unfold filter_workspace. rewrite filter_none by exact H. reflexivity.
Qed.

(** An element that may stand before the head of a list is inserted at
    its front. *)
Lemma insert_desc_head (x : Match.t) (l : list Match.t) :
  HdRel by_similarity_desc x l -> insert_desc similarity_ltb x l = x :: l.
Proof.
  intros H. destruct H as [|y l Hxy]; simpl.
  - reflexivity.
  - unfold similarity_ltb.
    apply Qle_bool_iff in Hxy. rewrite Hxy. reflexivity.
Qed.

Lemma sort_desc_sorted (l : list Match.t) :
  Sorted by_similarity_desc l -> sort_desc similarity_ltb l = l.
Proof.
  induction 1 as [|x l Hs IH Hhd]; simpl.
  - reflexivity.
  - fold (sort_desc similarity_ltb l). rewrite IH. now apply insert_desc_head.
Qed.

(** The model of [list.sort] is a sort: it permutes its argument and puts
    it in descending similarity order. *)
Lemma insert_desc_permutation {A : Type} (ltb : A -> A -> bool) (x : A)
    (l : list A) :
  Permutation (x :: l) (insert_desc ltb x l).
Proof.
  induction l as [|y r IH]; simpl.
  - apply Permutation_refl.
  - destruct (ltb x y).
    + apply perm_trans with (y :: x :: r); [apply perm_swap|].
      now apply perm_skip.
    + apply Permutation_refl.
Qed.

Lemma sort_desc_permutation {A : Type} (ltb : A -> A -> bool) (l : list A) :
  Permutation l (sort_desc ltb l).
Proof.
  induction l as [|x l IH]; simpl.
  - apply perm_nil.
  - apply perm_trans with (x :: sort_desc ltb l).
    + now apply perm_skip.
    + apply insert_desc_permutation.
Qed.

Lemma insert_desc_keeps_order (x : Match.t) (l : list Match.t) :
  Sorted by_similarity_desc l ->
  Sorted by_similarity_desc (insert_desc similarity_ltb x l).
Proof.
  induction 1 as [|y r Hs IH Hhd]; simpl.
  - repeat constructor.
  - unfold similarity_ltb at 1.
    destruct (Qle_bool (Match.similarity y) (Match.similarity x)) eqn:Hle; simpl.
    + constructor; [now constructor|].
      constructor. now apply Qle_bool_iff.
    + assert (Hxy : by_similarity_desc y x).
      { unfold by_similarity_desc. apply Qlt_le_weak, Qnot_le_lt.
        intros Hc. apply Qle_bool_iff in Hc. congruence. }
      constructor; [exact IH|].
      destruct Hhd as [|z r' Hyz]; simpl.
      * now constructor.
      * destruct (similarity_ltb x z); now constructor.
Qed.

Lemma sort_desc_orders (l : list Match.t) :
  Sorted by_similarity_desc (sort_desc similarity_ltb l).
Proof.
  induction l as [|x l IH]; simpl.
  - constructor.
  - now apply insert_desc_keeps_order.
Qed.

Lemma add_chunk_sources (l : list Match.t) (context : string)
    (sources : list MediaContext) :
  List.length (snd (fold_left add_chunk l (context, sources))) =
  (List.length sources + List.length l)%nat.
Proof.
  revert context sources.
  induction l as [|c l IH]; intros context sources; simpl.
  - lia.
  - rewrite IH. rewrite length_app. simpl. lia.
Qed.

(** The assembler cites as many chunks as the literal bound 10 allows. *)
Lemma assemble_length (filtered_results : list Match.t) :
  List.length (snd (assemble filtered_results)) =
  Nat.min 10 (List.length filtered_results).
Proof.
  unfold assemble. rewrite add_chunk_sources, length_firstn.
  cbn [List.length]. lia.
Qed.

(** The handler never reads [max_context_chunks]. *)
Lemma chat_ignores_max_context_chunks (request : ChatRequest) (req : Request)
    (m : option Z) :
  chat svc {| query := query request; workspace_id := workspace_id request;
              user_id := user_id request; max_context_chunks := m |} req =
  chat svc request req.
Proof. destruct request. reflexivity. Qed.

(** C8: when the vector search returns no candidate, the handler makes
    three calls and no other: the embedding of the query, the search, and
    one generation call with the generic instruction and the raw query.  No
    workspace membership is looked up, no context is assembled, and the
    response, which exists as soon as the generation call answers, has an
    empty list of sources. *)
Theorem chat_empty_search_falls_back (request : ChatRequest) (req : Request)
    (w : World) (e : Embedding) :
  truthy_opt (user_id request) = true ->
  embeddings_create svc "text-embedding-3-small" (query request) = inr e ->
  match_chunks svc (database w) e (35 # 100) 20 = inr [] ->
  let r := chat svc request req w in
  calls (fst r) =
    (calls w ++
       [EmbeddingsCreate "text-embedding-3-small" (query request);
        Rpc "match_chunks" e (35 # 100) 20;
        ChatCompletionsCreate "gpt-4" (fallback_messages (query request))])%list
  /\ (forall response, snd r = inr response -> context_sources response = [])
  /\ (forall a,
        chat_completions_create svc "gpt-4" (fallback_messages (query request))
          = inr a ->
        snd r = inr {| answer := a; context_sources := [] |}).
Proof.
  intros Hu He Hm r. subst r.
  unfold chat, create_embedding, match_documents, complete.
  run. rewrite Hu. run. rewrite He. run. rewrite Hm. run.
  fold (fallback_messages (query request)).
  destruct (chat_completions_create svc "gpt-4" (fallback_messages (query request)))
    as [err|a]; run; rewrite <- !app_assoc; cbn [app]; repeat split;
    intros ? H; try discriminate; injection H as <-; reflexivity.
Qed.

(** C1, amended: when the search returns at least one candidate and the
    workspace has at least one member but no candidate belongs to a member,
    the handler does not fall back: it makes the context-grounded
    generation call, with the context instruction and a user prompt that
    wraps an empty context and the query.  The list of sources of the
    response is empty. *)
Theorem chat_empty_filter_generates_with_empty_context
    (request : ChatRequest) (req : Request) (w : World) (e : Embedding)
    (found : list Match.t) :
  truthy_opt (user_id request) = true ->
  embeddings_create svc "text-embedding-3-small" (query request) = inr e ->
  match_chunks svc (database w) e (35 # 100) 20 = inr found ->
  found <> [] ->
  workspace_members (database w) (workspace_id request) <> [] ->
  (forall c, In c found ->
     contains (workspace_members (database w) (workspace_id request))
       (Match.media_id c) = false) ->
  let r := chat svc request req w in
  let messages := grounded_messages "" (query request) in
  calls (fst r) =
    (calls w ++
       [EmbeddingsCreate "text-embedding-3-small" (query request);
        Rpc "match_chunks" e (35 # 100) 20;
        Select "media_workspace_mapping" "media_id"
          (Some ("workspace_id", workspace_id request));
        ChatCompletionsCreate "gpt-4" messages])%list
  /\ (forall response, snd r = inr response -> context_sources response = [])
  /\ (forall a,
        chat_completions_create svc "gpt-4" messages = inr a ->
        snd r = inr {| answer := a; context_sources := [] |}).
Proof.
  intros Hu He Hm Hf Hw Hnone r messages. subst r messages.
  unfold chat, create_embedding, match_documents, complete,
    select_workspace_media.
  run. rewrite Hu. run. rewrite He. run. rewrite Hm. run.
  destruct found as [|c0 found']; [congruence|]. run.
  rewrite map_nonempty.
  fold (workspace_members (database w) (workspace_id request)).
  destruct (workspace_members (database w) (workspace_id request))
    as [|m ms] eqn:Hmem; [congruence|]. run.
  rewrite filter_workspace_none by exact Hnone.
  cbv beta iota zeta delta [assemble].
  cbn [List.length Nat.min firstn fold_left].
  fold (grounded_messages "" (query request)).
  destruct (chat_completions_create svc "gpt-4"
              (grounded_messages "" (query request)))
    as [err|a]; run; rewrite <- !app_assoc; cbn [app]; repeat split;
    intros ? H; try discriminate; injection H as <-; reflexivity.
Qed.

(** C9: the workspace filter is idempotent.  On candidates that all belong
    to media of the workspace and already stand in descending similarity
    order, the membership filter followed by the stable descending sort
    returns the list unchanged. *)
Theorem filter_workspace_idempotent (workspace_media_ids : list string)
    (candidates : list Match.t) :
  (forall c, In c candidates ->
     contains workspace_media_ids (Match.media_id c) = true) ->
  Sorted by_similarity_desc candidates ->
  filter_workspace workspace_media_ids candidates = candidates.
Proof.
  intros Hin Hsorted. unfold filter_workspace.
  rewrite filter_all by exact Hin. now apply sort_desc_sorted.
Qed.

End Query.

Section QueryScenarios.
Import Chat Scenario.

(** A search that finds nothing, run against the empty store. *)
Lemma chat_empty_search_falls_back_witness :
  let svc := services [] (inr "") in
  let request := question default_max_context_chunks in
  (truthy_opt (user_id request) = true
   /\ embeddings_create svc "text-embedding-3-small" (query request)
      = inr [1 # 1; 0 # 1]
   /\ match_chunks svc (database empty_world) [1 # 1; 0 # 1] (35 # 100) 20
      = inr [])
  /\ snd (chat svc request no_headers empty_world)
     = inr {| answer := "An answer."; context_sources := [] |}.
Proof.
  intros svc request. split.
  - repeat split.
  - apply (chat_empty_search_falls_back svc request no_headers empty_world
             [1 # 1; 0 # 1]); reflexivity.
Defined.

(** C1, as stated, fails.  The search finds one chunk, of ["media-2"]; the
    workspace has one member, ["media-1"]; the filter keeps nothing.  The
    calls of the handler contain no generation call with the generic
    instruction and the raw query: the one generation call it makes carries
    the context instruction. *)
Lemma chat_empty_filter_counterexample :
  let svc := services [stray_match] (inr "") in
  let request := question default_max_context_chunks in
  let r := chat svc request no_headers one_member_world in
  match_chunks svc (database one_member_world) [1 # 1; 0 # 1] (35 # 100) 20
    = inr [stray_match]
  /\ workspace_members (database one_member_world) (workspace_id request)
     = ["media-1"]
  /\ filter_workspace ["media-1"] [stray_match] = []
  /\ ~ In (ChatCompletionsCreate "gpt-4" (fallback_messages (query request)))
          (calls (fst r))
  /\ In (ChatCompletionsCreate "gpt-4" (grounded_messages "" (query request)))
        (calls (fst r)).
Proof.
  intros svc request r. repeat split.
  - vm_compute. intros [H|[H|[H|[H|[]]]]]; discriminate H.
  - vm_compute. do 3 right. left. reflexivity.
Qed.

(** The same run, as an instance of the amended statement. *)
Lemma chat_empty_filter_generates_with_empty_context_witness :
  let svc := services [stray_match] (inr "") in
  let request := question default_max_context_chunks in
  (truthy_opt (user_id request) = true
   /\ [stray_match] <> []
   /\ workspace_members (database one_member_world) (workspace_id request) <> [])
  /\ snd (chat svc request no_headers one_member_world)
     = inr {| answer := "An answer."; context_sources := [] |}.
Proof.
  intros svc request. split.
  - repeat split; discriminate.
  - apply (chat_empty_filter_generates_with_empty_context svc request
             no_headers one_member_world [1 # 1; 0 # 1] [stray_match]);
      try reflexivity; try discriminate.
    intros c [<-|[]]. reflexivity.
Defined.

(** C2, where the code departs from it.  The request asks for at most one
    context chunk and two candidates survive the filter; the response cites
    both, where [min(1, 2) = 1] was promised: the bound applied is the
    literal 10, and [max_context_chunks] is never read. *)
Theorem chat_exceeds_max_context_chunks :
  let svc := services [refund_match; shipping_match] (inr "") in
  let request := question (Some 1) in
  exists response,
    snd (chat svc request no_headers one_member_world) = inr response
    /\ filter_workspace ["media-1"] [refund_match; shipping_match]
       = [refund_match; shipping_match]
    /\ map chunk_id (context_sources response) = ["chunk-1"; "chunk-2"]
    /\ Z.of_nat (List.length (context_sources response)) <> Z.min 1 2.
Proof.
  intros svc request. eexists. split; [reflexivity|].
  repeat split. discriminate.
Qed.

(** Three candidates of the workspace in descending order, two of them
    with the same similarity. *)
Lemma filter_workspace_idempotent_witness :
  let candidates := [refund_match; shipping_match; stray_match] in
  Sorted by_similarity_desc candidates
  /\ filter_workspace ["media-1"; "media-2"] candidates = candidates.
Proof.
  intros candidates.
  assert (Hs : Sorted by_similarity_desc candidates)
    by (repeat constructor; unfold by_similarity_desc, Qle; simpl; lia).
  split; [exact Hs|].
  apply filter_workspace_idempotent; [|exact Hs].
  intros c [<-|[<-|[<-|[]]]]; reflexivity.
Defined.

End QueryScenarios.

(* ===================================================================== *)
(** * The ingestion flow *)
(* ===================================================================== *)

Section Ingestion.
Import TextProcessing ProcessChunks.
Context (svc : Services).

(** C3, where the code departs from it.  When the file is absent from
    storage, or no media record bears its name, the handler raises the 404
    it was written to raise, and its own outermost [except Exception]
    clause catches it and raises a 500 whose detail is the text of the 404:
    the caller sees a generic service failure. *)
Theorem process_chunks_not_found_becomes_500 (request : ProcessChunkRequest)
    (w : World) :
  truthy (fileName request) = true ->
  lookup (fileName request) (storage w) = None
  \/ media_named (database w) (basename (fileName request)) = [] ->
  exists detail,
    snd (process_chunks svc request w) =
    inl (HTTPException 500 (http_exception_str svc 404 detail)).
Proof.
  intros Hname Habsent.
  unfold process_chunks, storage_download, select_media_by_name.
  run. rewrite Hname. run.
  destruct (lookup (fileName request) (storage w)) as [file_result|] eqn:Hfile.
  - destruct Habsent as [|Hmedia]; [discriminate|].
    run. destruct (truthy file_result); run.
    + fold (media_named (database w) (basename (fileName request))).
      rewrite Hmedia. run. eexists. reflexivity.
    + eexists. reflexivity.
  - run. eexists. reflexivity.
Qed.

(** The task of text_processing.py, which [upload_file] does not use,
    returns normally on every file name: it prints and drops the error. *)
Lemma utils_background_task_swallows (file_name : string) (w : World) :
  TextProcessing.background_process_chunks svc file_name w =
  (log_print "Error in background processing: name 'ProcessChunkRequest' is not defined" w,
   inr tt).
Proof. reflexivity. Qed.

(** C7, where the code departs from it.  The task [upload_file] registers
    is the [background_process_chunks] of process_chunks.py, which has no
    handler: whenever processing the uploaded file raises an error, the
    task ends with that same error, in the world processing left, nothing
    more printed. *)
Theorem registered_background_task_propagates_errors
    (background_tasks : BackgroundTasks) (file : UploadFile)
    (owner_id workspace_id : string) (w w' : World)
    (tasks' : BackgroundTasks) (result : UploadResult) (w0 : World) (e : exn) :
  upload_file svc background_tasks file owner_id workspace_id w =
    (w', inr (tasks', result)) ->
  snd (process_chunks svc {| fileName := upload_fileName result |} w0) = inl e ->
  exists task,
    tasks' = (background_tasks ++ [task])%list
    /\ task w0 =
       (fst (process_chunks svc {| fileName := upload_fileName result |} w0),
        inl e).
Proof.
  intros Hup Herr.
  unfold upload_file, storage_upload, insert_media, insert_mapping in Hup.
  revert Hup. run.
  destruct (truthy owner_id); run; [|discriminate].
  destruct (lookup _ (storage w)); run; [discriminate|].
  intros Hup. injection Hup as _ <- <-.
  eexists. split; [reflexivity|].
  cbn [upload_fileName]. unfold background_process_chunks. run.
  destruct (process_chunks svc _ w0) as [w1 [e1|r1]]; simpl in Herr |- *.
  - congruence.
  - discriminate.
Qed.

End Ingestion.

Section IngestionScenarios.
Import ProcessChunks Scenario.

(** A request for a file that was never uploaded. *)
Lemma process_chunks_not_found_becomes_500_witness :
  let request := {| fileName := "uploads/missing.pdf" |} in
  (truthy (fileName request) = true
   /\ lookup (fileName request) (storage empty_world) = None)
  /\ exists detail,
       snd (process_chunks failing_converter request empty_world) =
       inl (HTTPException 500 (http_str 404 detail)).
Proof.
  intros request. split.
  - split; reflexivity.
  - apply (process_chunks_not_found_becomes_500 failing_converter request
             empty_world); [reflexivity | left; reflexivity].
Defined.

(** An upload whose document the converter cannot read: the upload
    succeeds, and the task it registered ends with the error. *)
Lemma registered_background_task_propagates_errors_witness :
  let e := HTTPException 500 "500: Failed to process document: conversion failed" in
  let w' := fst upload_run in
  let path := upload_fileName (upload_result upload_run) in
  (upload_run = (w', inr (registered_tasks upload_run, upload_result upload_run))
   /\ snd (process_chunks failing_converter {| fileName := path |} w') = inl e)
  /\ exists task,
       registered_tasks upload_run = [task]
       /\ snd (task w') = inl e
       /\ snd (run_tasks (registered_tasks upload_run) w') = inl e.
Proof.
  intros e w' path.
  assert (Hup : upload_run
                = (w', inr (registered_tasks upload_run, upload_result upload_run)))
    by reflexivity.
  assert (Herr : snd (process_chunks failing_converter {| fileName := path |} w')
                 = inl e) by reflexivity.
  split; [split; assumption|].
  destruct (registered_background_task_propagates_errors failing_converter
              [] report "owner-1" "ws-1" empty_world w'
              (registered_tasks upload_run) (upload_result upload_run) w' e
              Hup Herr) as [task [Htasks Htask]].
  exists task. split; [exact Htasks|]. split.
  - rewrite Htask. reflexivity.
  - rewrite Htasks. cbn [app run_tasks]. unfold bind. rewrite Htask. reflexivity.
Defined.

End IngestionScenarios.

(* ===================================================================== *)
(** * The ad hoc search *)
(* ===================================================================== *)

Section Search.
Import TextProcessing Embeddings.
Context (svc : Services) (np : Numpy).

(** The scan reads the chunks it is given and nothing else: it leaves the
    world as it found it and its result does not depend on the world. *)
Lemma scan_pure (query_embedding : Embedding) (threshold : option Q)
    (todo : list ChunkRow.t) :
  forall results, exists r,
    forall w, scan np query_embedding threshold todo results w = (w, r).
Proof.
  induction todo as [|chunk rest IH]; intros results; simpl.
  - eexists. intros w. reflexivity.
  - run.
    destruct (cosine_similarity np query_embedding (ChunkRow.embedding chunk))
      as [e|s].
    + eexists. intros w. reflexivity.
    + destruct threshold as [t|].
      * destruct (ge np s t); apply IH.
      * eexists. intros w. reflexivity.
Qed.

(** The statements after the import apply no workspace scoping: their
    result is a function of the query and of the [chunks] table alone, so
    two stores with the same chunks give the same result whatever their
    media-to-workspace rows are. *)
Lemma search_chunks_ignores_workspace_membership (q : SearchQuery)
    (query_embedding : Embedding) (w1 w2 : World) :
  chunks (database w1) = chunks (database w2) ->
  snd (search_chunks np q query_embedding w1) =
  snd (search_chunks np q query_embedding w2).
Proof.
  intros Hchunks. unfold search_chunks, select_all_chunks.
  run. rewrite <- Hchunks.
  destruct (chunks (database w1)) as [|c cs] eqn:Hc; run.
  - reflexivity.
  - destruct (scan_pure query_embedding (similarity_threshold q) (c :: cs) [])
      as [r Hr].
    rewrite !Hr. destruct r; reflexivity.
Qed.

(** C10, where the code departs from it.  The handler never reaches the
    chunks: config.py binds no name [supabase], so the import inside the
    [try] block raises, and every search request, on every store, ends in a
    500 after the one call that embeds the query.  No unit of any document
    appears in an output. *)
Theorem search_embeddings_fails_on_import (q : SearchQuery) (w : World) :
  let r := search_embeddings svc np q w in
  calls (fst r) =
    (calls w ++ [EmbeddingsCreate "text-embedding-3-small" (query q)])%list
  /\ exists detail, snd r = inl (HTTPException 500 detail).
Proof.
  intros r. subst r.
  unfold search_embeddings, create_embedding, Config.import_from.
  replace (contains Config.names "supabase") with false by reflexivity.
  run.
  destruct (embeddings_create svc _ _) as [e|query_embedding]; run;
    (split; [reflexivity | eexists; reflexivity]).
Qed.

End Search.

Section SearchScenarios.
Import Embeddings Scenario.

(** Past the import, the same chunk is found in a store where its media
    is in no workspace and in a store where it is a member of one. *)
Lemma search_chunks_scenario :
  let found := snd (search_chunks rational_numpy search_query [1 # 1; 0 # 1]
                      unmapped_store) in
  (chunks (database unmapped_store) = chunks (database mapped_store)
   /\ media_workspace_mapping (database unmapped_store) = []
   /\ media_workspace_mapping (database mapped_store)
      = [MappingRow.make "media-1" "ws-2"])
  /\ found = snd (search_chunks rational_numpy search_query [1 # 1; 0 # 1]
                    mapped_store)
  /\ match found with
     | inr results => map chunk_id results = ["chunk-1"]
     | inl _ => False
     end.
Proof.
  intros found. split; [repeat split|]. split.
  - apply (search_chunks_ignores_workspace_membership rational_numpy
             search_query [1 # 1; 0 # 1] unmapped_store mapped_store).
    reflexivity.
  - reflexivity.
Defined.

(** The whole handler on the same store and request. *)
Lemma search_embeddings_scenario :
  snd (search_embeddings (services [] (inr "")) rational_numpy search_query
         unmapped_store)
  = inl (HTTPException 500
           "cannot import name 'supabase' from 'app.utils.config'").
Proof. reflexivity. Qed.

End SearchScenarios.

(* ===================================================================== *)
(** * The chunker, continued *)
(* ===================================================================== *)

Section ChunkerShape.
Import TextProcessing.

Lemma append_assoc (a b c : string) : (a ++ b) ++ c = a ++ (b ++ c).
Proof. induction a as [|x a IH]; simpl; [reflexivity | now rewrite IH]. Qed.

Lemma append_nil_r (a : string) : a ++ "" = a.
Proof. induction a as [|x a IH]; simpl; [reflexivity | now rewrite IH]. Qed.

Lemma split_nonempty (sep : ascii) (s : string) : split sep s <> [].
Proof.
  destruct s as [|c r]; simpl; [discriminate|].
  destruct (Ascii.eqb c sep); [discriminate|].
  destruct (split sep r); discriminate.
Qed.

Lemma truthy_app_dot (a b : string) : truthy (a ++ b ++ ".") = true.
Proof. destruct a; [destruct b|]; reflexivity. Qed.

(** Once a sentence has been read, something has been emitted or the
    buffer is not empty. *)
Lemma accumulate_progress (L : Z) (sentences : list string) :
  forall chunks current_chunk,
    chunks <> [] \/ truthy current_chunk = true \/ sentences <> [] ->
    fst (accumulate L sentences chunks current_chunk) <> []
    \/ truthy (snd (accumulate L sentences chunks current_chunk)) = true.
Proof.
  induction sentences as [|sentence rest IH]; intros chunks cur H; simpl.
  - destruct H as [H|[H|H]]; auto; congruence.
  - destruct (len cur + len sentence >? L).
    + apply IH. left. destruct chunks; discriminate.
    + apply IH. right. left. apply truthy_app_dot.
Qed.

(** X2: the chunker never returns the empty list, whatever the text and
    the chunk size: every document, the empty one included, yields at
    least one chunk to embed and store. *)
Theorem split_into_chunks_never_empty (text : string) (chunk_size : Z) :
  split_into_chunks text chunk_size <> [].
Proof.
  unfold split_into_chunks.
  assert (H : fst (accumulate chunk_size (split "." text) [] "") <> []
              \/ truthy (snd (accumulate chunk_size (split "." text) [] "")) = true).
  { apply accumulate_progress. right. right. apply split_nonempty. }
  destruct (accumulate chunk_size (split "." text) [] "") as [chunks cur].
  simpl in H. destruct (truthy cur).
  - destruct chunks; discriminate.
  - destruct H as [H|H]; [exact H | discriminate].
Qed.

(** Splitting on the terminator and putting a terminator after each piece
    gives the text with one more terminator. *)
Lemma terminate_split (text : string) :
  terminate_all (split "." text) = text ++ ".".
Proof.
  induction text as [|c r IH]; simpl.
  - reflexivity.
  - destruct (Ascii.eqb c ".") eqn:Hc.
    + apply Ascii.eqb_eq in Hc. subst c. simpl. now rewrite IH.
    + destruct (split "." r) as [|p ps] eqn:Hs.
      * now apply split_nonempty in Hs.
      * simpl in *. now rewrite IH.
Qed.

Lemma accumulate_fits (L : Z) (sentences : list string) :
  forall chunks current_chunk,
    sentences = [] \/ len current_chunk + len (terminate_all sentences) - 1 <= L ->
    accumulate L sentences chunks current_chunk =
    (chunks, current_chunk ++ terminate_all sentences).
Proof.
  induction sentences as [|sentence rest IH]; intros chunks cur H;
    cbn [accumulate].
  - simpl. now rewrite append_nil_r.
  - destruct H as [H|H]; [discriminate|].
    change (terminate_all (sentence :: rest))
      with (sentence ++ "." ++ terminate_all rest) in H.
    rewrite !len_app in H. change (len ".") with 1 in H.
    assert (Hrest : 0 <= len (terminate_all rest)) by (unfold len; lia).
    replace (len cur + len sentence >? L) with false
      by (symmetry; rewrite Z.gtb_ltb; apply Z.ltb_ge; lia).
    rewrite IH.
    + change (terminate_all (sentence :: rest))
        with (sentence ++ "." ++ terminate_all rest).
      now rewrite !append_assoc.
    + destruct rest as [|s2 rest']; [now left | right].
      rewrite !len_app. change (len ".") with 1. lia.
Qed.

(** X3: a text no longer than the chunk size is never cut: it comes back
    as one chunk, the text with one terminator appended, trimmed. *)
Theorem split_into_chunks_fitting_text (text : string) (chunk_size : Z) :
  len text <= chunk_size ->
  split_into_chunks text chunk_size = [Chunk.make (strip (text ++ ".")) []].
Proof.
  intros H. unfold split_into_chunks.
  rewrite accumulate_fits.
  - rewrite terminate_split. simpl append.
    replace (truthy (text ++ ".")) with true; [reflexivity|].
    symmetry. apply (truthy_app_dot "" text).
  - right. rewrite terminate_split, len_app.
    change (len "") with 0. change (len ".") with 1. lia.
Qed.

Lemma rstrip_cons (c : ascii) (r : string) :
  rstrip (String c r) =
  match rstrip r with
  | EmptyString => if isspace c then EmptyString else String c EmptyString
  | r' => String c r'
  end.
Proof. reflexivity. Qed.

Lemma rstrip_idempotent (s : string) : rstrip (rstrip s) = rstrip s.
Proof.
  induction s as [|c r IH].
  - reflexivity.
  - rewrite (rstrip_cons c r). destruct (rstrip r) as [|c' r'] eqn:Hr.
    + destruct (isspace c) eqn:Hc; [reflexivity|].
      rewrite rstrip_cons. simpl. now rewrite Hc.
    + rewrite rstrip_cons, IH. reflexivity.
Qed.

Lemma rstrip_head (c : ascii) (r : string) :
  isspace c = false -> exists r', rstrip (String c r) = String c r'.
Proof.
  intros Hc. rewrite rstrip_cons. destruct (rstrip r).
  - rewrite Hc. now exists "".
  - eexists. reflexivity.
Qed.

Lemma lstrip_head (s : string) :
  lstrip s = "" \/ exists c r, lstrip s = String c r /\ isspace c = false.
Proof.
  induction s as [|c r IH]; simpl.
  - now left.
  - destruct (isspace c) eqn:Hc; [exact IH|]. right. now exists c, r.
Qed.

(** Trimming a trimmed string changes nothing. *)
Lemma strip_idempotent (s : string) : strip (strip s) = strip s.
Proof.
  unfold strip. destruct (lstrip_head s) as [H|[c [r [H Hc]]]]; rewrite H.
  - reflexivity.
  - destruct (rstrip_head c r Hc) as [r' Hr]. rewrite Hr.
    simpl lstrip. rewrite Hc. rewrite <- Hr. apply rstrip_idempotent.
Qed.

Lemma accumulate_trimmed (L : Z) (sentences : list string) :
  forall chunks current_chunk,
    Forall (fun c => strip (Chunk.text c) = Chunk.text c) chunks ->
    Forall (fun c => strip (Chunk.text c) = Chunk.text c)
      (fst (accumulate L sentences chunks current_chunk)).
Proof.
  induction sentences as [|sentence rest IH]; intros chunks cur H; simpl.
  - exact H.
  - destruct (len cur + len sentence >? L); apply IH; trivial.
    apply Forall_app. split; trivial.
    constructor; [|constructor]. apply strip_idempotent.
Qed.

(** X4: every chunk is trimmed: no chunk text begins or ends with
    whitespace, so trimming it again changes nothing. *)
Theorem split_into_chunks_trimmed (text : string) (chunk_size : Z) :
  Forall (fun c => strip (Chunk.text c) = Chunk.text c)
    (split_into_chunks text chunk_size).
Proof.
  unfold split_into_chunks.
  pose proof (accumulate_trimmed chunk_size (split "." text) [] ""
                (Forall_nil _)) as H.
  destruct (accumulate chunk_size (split "." text) [] "") as [chunks cur].
  simpl in H. destruct (truthy cur); [|exact H].
  apply Forall_app. split; [exact H|].
  constructor; [|constructor]. apply strip_idempotent.
Qed.

Lemma letters_cons (c : ascii) (r : string) :
  letters (String c r) = if is_letter c then c :: letters r else letters r.
Proof. reflexivity. Qed.

Lemma letters_app (a b : string) :
  letters (a ++ b) = (letters a ++ letters b)%list.
Proof.
  induction a as [|c a IH].
  - reflexivity.
  - change (String c a ++ b) with (String c (a ++ b)).
    rewrite !letters_cons, IH. now destruct (is_letter c).
Qed.

Lemma isspace_not_letter (c : ascii) : isspace c = true -> is_letter c = false.
Proof. intros H. unfold is_letter. now rewrite H, orb_true_r. Qed.

Lemma letters_lstrip (s : string) : letters (lstrip s) = letters s.
Proof.
  induction s as [|c r IH]; simpl lstrip.
  - reflexivity.
  - destruct (isspace c) eqn:Hc; [|reflexivity].
    now rewrite letters_cons, (isspace_not_letter c Hc).
Qed.

Lemma letters_rstrip (s : string) : letters (rstrip s) = letters s.
Proof.
  induction s as [|c r IH].
  - reflexivity.
  - rewrite rstrip_cons, (letters_cons c r), <- IH.
    destruct (rstrip r) as [|c' r'].
    + destruct (isspace c) eqn:Hc.
      * now rewrite (isspace_not_letter c Hc).
      * now rewrite letters_cons.
    + now rewrite letters_cons.
Qed.

Lemma letters_strip (s : string) : letters (strip s) = letters s.
Proof. unfold strip. now rewrite letters_rstrip, letters_lstrip. Qed.

Lemma letters_split (text : string) :
  flat_map letters (split "." text) = letters text.
Proof.
  induction text as [|c r IH]; cbn [split].
  - reflexivity.
  - rewrite letters_cons. destruct (Ascii.eqb c ".") eqn:Hc.
    + cbn [flat_map]. rewrite IH. unfold is_letter. now rewrite Hc.
    + destruct (split "." r) as [|p ps] eqn:Hs.
      * now apply split_nonempty in Hs.
      * cbn [flat_map] in *. rewrite letters_cons, <- IH.
        now destruct (is_letter c).
Qed.

(** The loop moves letters from the sentences to the buffer and from the
    buffer to the chunks, and loses none. *)
Lemma accumulate_letters (L : Z) (sentences : list string) :
  forall chunks current_chunk,
    (chunk_letters (fst (accumulate L sentences chunks current_chunk))
     ++ letters (snd (accumulate L sentences chunks current_chunk)))%list
    = (chunk_letters chunks ++ letters current_chunk
       ++ flat_map letters sentences)%list.
Proof.
  induction sentences as [|sentence rest IH]; intros chunks cur; cbn [accumulate].
  - simpl. now rewrite app_nil_r.
  - destruct (len cur + len sentence >? L); rewrite IH.
    + unfold chunk_letters. rewrite flat_map_app. simpl.
      rewrite letters_strip, app_nil_r, <- !app_assoc. reflexivity.
    + rewrite !letters_app. change (letters ".") with (@nil ascii).
      simpl. rewrite app_nil_r, <- !app_assoc. reflexivity.
Qed.

(** X5: chunking loses and invents no content.  Read one after the other,
    the chunks hold the characters of the text in the same order, as far as
    the characters are neither terminators nor whitespace. *)
Theorem split_into_chunks_keeps_letters (text : string) (chunk_size : Z) :
  chunk_letters (split_into_chunks text chunk_size) = letters text.
Proof.
  unfold split_into_chunks.
  pose proof (accumulate_letters chunk_size (split "." text) [] "") as H.
  destruct (accumulate chunk_size (split "." text) [] "") as [chunks cur].
  simpl in H. rewrite letters_split in H. rewrite <- H.
  destruct cur as [|c cur'].
  - simpl. now rewrite app_nil_r.
  - change (truthy (String c cur')) with true. cbv iota.
    unfold chunk_letters. rewrite flat_map_app. cbn [flat_map Chunk.text].
    now rewrite letters_strip, app_nil_r.
Qed.

End ChunkerShape.

Section ChunkerScenarios.
Import TextProcessing.

(** The chunk of 6 characters that two short sentences make under the
    limit 5. *)
Lemma split_into_chunks_soft_limit_witness :
  (0 <= 5 /\ In (Chunk.make "ab.cd." []) (split_into_chunks "ab.cd" 5))
  /\ within_soft_limit 5 (split "." "ab.cd") (Chunk.make "ab.cd." []).
Proof.
  assert (H0 : 0 <= 5) by lia.
  assert (Hin : In (Chunk.make "ab.cd." []) (split_into_chunks "ab.cd" 5))
    by (left; reflexivity).
  split; [split; assumption|].
  exact (split_into_chunks_soft_limit "ab.cd" 5 (Chunk.make "ab.cd." []) H0 Hin).
Defined.

(** A text given with surrounding blanks and the default chunk size. *)
Lemma split_into_chunks_fitting_text_witness :
  len " Refunds take 30 days. Ask us " <= default_chunk_size
  /\ split_into_chunks " Refunds take 30 days. Ask us " default_chunk_size
     = [Chunk.make "Refunds take 30 days. Ask us ." []].
Proof.
  assert (H : len " Refunds take 30 days. Ask us " <= default_chunk_size)
    by (vm_compute; discriminate).
  split; [exact H|].
  exact (split_into_chunks_fitting_text " Refunds take 30 days. Ask us "
           default_chunk_size H).
Defined.

End ChunkerScenarios.

(* ===================================================================== *)
(** * The query flow, continued *)
(* ===================================================================== *)

Section QueryShape.
Import TextProcessing Chat.
Context (svc : Services).

Lemma add_chunk_fold (l : list Match.t) (context : string)
    (sources : list MediaContext) :
  fold_left add_chunk l (context, sources) =
  (context ++ render l, (sources ++ map cite l)%list).
Proof.
  revert context sources.
  induction l as [|c l IH]; intros context sources; cbn [fold_left render map].
  - now rewrite append_nil_r, app_nil_r.
  - unfold add_chunk at 2. fold (cite c). rewrite IH. f_equal.
    + change (render (c :: l)) with (block c ++ render l).
      unfold block. now rewrite !append_assoc.
    + now rewrite <- app_assoc.
Qed.

Lemma firstn_min {A : Type} (n : nat) (l : list A) :
  firstn (Nat.min n (List.length l)) l = firstn n l.
Proof.
  destruct (Nat.le_ge_cases n (List.length l)) as [H|H].
  - now rewrite Nat.min_l.
  - rewrite Nat.min_r by exact H. rewrite firstn_all.
    symmetry. now apply firstn_all2.
Qed.

(** X6: the assembler renders and cites the same candidates in the same
    order: the context is the labelled blocks of the first ten candidates,
    one after the other, and the sources are their citations. *)
Theorem assemble_blocks_and_sources (filtered_results : list Match.t) :
  assemble filtered_results =
  (render (firstn 10 filtered_results), map cite (firstn 10 filtered_results)).
Proof.
  unfold assemble. rewrite firstn_min. apply add_chunk_fold.
Qed.

(** The same fact, for use in the proofs below. *)
Lemma assemble_top (filtered_results : list Match.t) :
  assemble filtered_results =
  (render (firstn 10 filtered_results), map cite (firstn 10 filtered_results)).
Proof.
  unfold assemble. rewrite firstn_min. apply add_chunk_fold.
Qed.

Lemma contains_In (l : list string) (x : string) :
  contains l x = true -> In x l.
Proof.
  unfold contains. intros H. apply existsb_exists in H.
  destruct H as [y [Hy Heq]]. apply String.eqb_eq in Heq. now subst.
Qed.

Lemma filter_workspace_In (ids : list string) (l : list Match.t) (c : Match.t) :
  In c (filter_workspace ids l) ->
  In c l /\ contains ids (Match.media_id c) = true.
Proof.
  unfold filter_workspace. intros H.
  apply (Permutation_in c (Permutation_sym (sort_desc_permutation _ _))) in H.
  now apply filter_In in H.
Qed.

Lemma filter_workspace_no_members (l : list Match.t) :
  filter_workspace [] l = [].
Proof.
  unfold filter_workspace. rewrite filter_none; [reflexivity|].
  intros x _. reflexivity.
Qed.

(** X7: the workspace filter returns a rearrangement of exactly the
    candidates whose media is a member, none lost and none repeated, in
    descending similarity order, whatever the order of its input. *)
Theorem filter_workspace_keeps_members (workspace_media_ids : list string)
    (candidates : list Match.t) :
  Permutation
    (filter (fun c => contains workspace_media_ids (Match.media_id c)) candidates)
    (filter_workspace workspace_media_ids candidates)
  /\ Sorted by_similarity_desc (filter_workspace workspace_media_ids candidates).
Proof.
  unfold filter_workspace. split.
  - apply sort_desc_permutation.
  - apply sort_desc_orders.
Qed.

(** X8: the workspace filter is idempotent on every input: filtering its
    own result for the same workspace returns that result. *)
Theorem filter_workspace_twice (workspace_media_ids : list string)
    (candidates : list Match.t) :
  filter_workspace workspace_media_ids
    (filter_workspace workspace_media_ids candidates)
  = filter_workspace workspace_media_ids candidates.
Proof.
  unfold filter_workspace at 1. rewrite filter_all.
  - apply sort_desc_sorted. unfold filter_workspace. apply sort_desc_orders.
  - intros c Hc. now apply filter_workspace_In in Hc.
Qed.

Lemma In_firstn {A : Type} (n : nat) (l : list A) (x : A) :
  In x (firstn n l) -> In x l.
Proof.
  intros H. rewrite <- (firstn_skipn n l). apply in_or_app. now left.
Qed.

Lemma Sorted_firstn {A : Type} (R : A -> A -> Prop) (n : nat) (l : list A) :
  Sorted R l -> Sorted R (firstn n l).
Proof.
  intros H. revert n. induction H as [|x l Hs IH Hhd]; intros n.
  - rewrite firstn_nil. constructor.
  - destruct n as [|n]; simpl; [constructor|].
    constructor; [apply IH|].
    destruct Hhd as [|y l' Hxy]; [rewrite firstn_nil; constructor|].
    destruct n; simpl; now constructor.
Qed.

Lemma Sorted_cite (l : list Match.t) :
  Sorted by_similarity_desc l -> Sorted sources_descending (map cite l).
Proof.
  induction 1 as [|x l Hs IH Hhd]; simpl; constructor; trivial.
  destruct Hhd; simpl; now constructor.
Qed.

(** Whatever branch answers, the sources of a response are the citations
    of the ten best candidates the workspace filter keeps. *)
Lemma chat_sources (request : ChatRequest) (req : Request) (w : World)
    (response : ChatResponse) :
  snd (chat svc request req w) = inr response ->
  exists e found,
    embeddings_create svc "text-embedding-3-small" (query request) = inr e
    /\ match_chunks svc (database w) e (35 # 100) 20 = inr found
    /\ context_sources response =
       map cite (firstn 10 (filter_workspace
                              (workspace_members (database w) (workspace_id request))
                              found)).
Proof.
  unfold chat, create_embedding, match_documents, complete, select_workspace_media.
  run.
  destruct (truthy_opt (user_id request)); run;
    [|destruct (authorization req) as [h|];
      [destruct (truthy h && startswith h "Bearer ")|];
      run; intros H; discriminate H].
  destruct (embeddings_create svc _ _) as [err|e] eqn:He; run;
    [intros H; discriminate H|].
  destruct (match_chunks svc (database w) e _ _) as [err|found] eqn:Hm; run;
    [intros H; discriminate H|].
  intros H. exists e, found. split; [reflexivity|]. split; [exact Hm|].
  revert H. destruct found as [|c0 found']; run.
  - destruct (chat_completions_create svc _ _); run; intros H;
      [discriminate H|]. injection H as <-. reflexivity.
  - rewrite map_nonempty.
    fold (workspace_members (database w) (workspace_id request)).
    destruct (workspace_members (database w) (workspace_id request))
      as [|m ms]; run.
    + destruct (chat_completions_create svc _ _); run; intros H;
        [discriminate H|]. injection H as <-.
      now rewrite filter_workspace_no_members.
    + rewrite assemble_top.
      destruct (chat_completions_create svc _ _); run; intros H;
        [discriminate H|]. injection H as <-. reflexivity.
Qed.

(** X9: no response cites more than ten chunks, whatever the request
    asks for and however many candidates survive the filter. *)
Theorem chat_sources_at_most_ten (request : ChatRequest) (req : Request)
    (w : World) (response : ChatResponse) :
  snd (chat svc request req w) = inr response ->
  (List.length (context_sources response) <= 10)%nat.
Proof.
  intros H. destruct (chat_sources request req w response H)
    as [e [found [_ [_ ->]]]].
  rewrite length_map, length_firstn. lia.
Qed.

(** X10: the answer is scoped to the workspace of the request: every
    source a response cites belongs to a media that the mapping table makes
    a member of that workspace. *)
Theorem chat_sources_within_workspace (request : ChatRequest) (req : Request)
    (w : World) (response : ChatResponse) (source : MediaContext) :
  snd (chat svc request req w) = inr response ->
  In source (context_sources response) ->
  In (MappingRow.make (media_id source) (workspace_id request))
     (media_workspace_mapping (database w)).
Proof.
  intros H Hin. destruct (chat_sources request req w response H)
    as [e [found [_ [_ Hs]]]].
  rewrite Hs in Hin. apply in_map_iff in Hin. destruct Hin as [c [<- Hc]].
  apply In_firstn, filter_workspace_In in Hc. destruct Hc as [_ Hc].
  apply contains_In in Hc. unfold workspace_members in Hc.
  apply in_map_iff in Hc. destruct Hc as [row [Hid Hrow]].
  apply filter_In in Hrow. destruct Hrow as [Hrow Hws].
  apply String.eqb_eq in Hws. destruct row as [mid ws]. simpl in *.
  now subst.
Qed.

(** X11: the sources of every response stand in descending similarity
    order, also when the search returned its rows in another order. *)
Theorem chat_sources_descending (request : ChatRequest) (req : Request)
    (w : World) (response : ChatResponse) :
  snd (chat svc request req w) = inr response ->
  Sorted sources_descending (context_sources response).
Proof.
  intros H. destruct (chat_sources request req w response H)
    as [e [found [_ [_ ->]]]].
  apply Sorted_cite, Sorted_firstn. unfold filter_workspace.
  apply sort_desc_orders.
Qed.

(** X12: a query changes nothing: whether it answers or fails, the
    handler leaves the database and the storage bucket as they were. *)
Theorem chat_reads_only (request : ChatRequest) (req : Request) (w : World) :
  database (fst (chat svc request req w)) = database w
  /\ storage (fst (chat svc request req w)) = storage w.
Proof.
  unfold chat, create_embedding, match_documents, complete, select_workspace_media.
  run.
  destruct (truthy_opt (user_id request)); run;
    [|destruct (authorization req) as [h|];
      [destruct (truthy h && startswith h "Bearer ")|];
      run; repeat split].
  destruct (embeddings_create svc _ _) as [err|e]; run; [repeat split|].
  destruct (match_chunks svc (database w) e _ _) as [err|found]; run;
    [repeat split|].
  destruct found as [|c0 found']; run.
  - destruct (chat_completions_create svc _ _); run; repeat split.
  - rewrite map_nonempty.
    destruct (map MappingRow.media_id _) as [|m ms]; run.
    + destruct (chat_completions_create svc _ _); run; repeat split.
    + destruct (assemble _) as [context sources].
      destruct (chat_completions_create svc _ _); run; repeat split.
Qed.

(** X13: the grounded path.  When the filter keeps at least one candidate,
    the handler makes four calls: the embedding, the search, the
    membership lookup and one generation call whose user prompt wraps the
    blocks of the ten best kept candidates; the response cites exactly
    those candidates, and a failure of the generation call is a 500. *)
Theorem chat_grounds_answer_in_top_chunks (request : ChatRequest)
    (req : Request) (w : World) (e : Embedding) (found : list Match.t) :
  truthy_opt (user_id request) = true ->
  embeddings_create svc "text-embedding-3-small" (query request) = inr e ->
  match_chunks svc (database w) e (35 # 100) 20 = inr found ->
  filter_workspace (workspace_members (database w) (workspace_id request)) found
    <> [] ->
  let r := chat svc request req w in
  let top :=
    firstn 10 (filter_workspace
                 (workspace_members (database w) (workspace_id request)) found) in
  let messages := grounded_messages (render top) (query request) in
  calls (fst r) =
    (calls w ++
       [EmbeddingsCreate "text-embedding-3-small" (query request);
        Rpc "match_chunks" e (35 # 100) 20;
        Select "media_workspace_mapping" "media_id"
          (Some ("workspace_id", workspace_id request));
        ChatCompletionsCreate "gpt-4" messages])%list
  /\ (forall a,
        chat_completions_create svc "gpt-4" messages = inr a ->
        snd r = inr {| answer := a; context_sources := map cite top |})
  /\ (forall err,
        chat_completions_create svc "gpt-4" messages = inl err ->
        snd r = inl (HTTPException 500 (str svc err))).
Proof.
  intros Hu He Hm Hkept r top messages. subst r top messages.
  unfold chat, create_embedding, match_documents, complete,
    select_workspace_media.
  run. rewrite Hu. run. rewrite He. run. rewrite Hm. run.
  destruct found as [|c0 found']; [now destruct Hkept|]. run.
  rewrite map_nonempty.
  fold (workspace_members (database w) (workspace_id request)).
  destruct (workspace_members (database w) (workspace_id request))
    as [|m ms] eqn:Hmem;
    [now rewrite filter_workspace_no_members in Hkept|]. run.
  rewrite assemble_top.
  set (top := firstn 10 (filter_workspace (m :: ms) (c0 :: found'))).
  fold (grounded_messages (render top) (query request)).
  destruct (chat_completions_create svc "gpt-4"
              (grounded_messages (render top) (query request)))
    as [err|a]; run; rewrite <- !app_assoc; cbn [app]; repeat split;
    intros ? H; try discriminate; injection H as <-; reflexivity.
Qed.

(** X14: the fallback of the empty workspace.  When the search finds
    candidates and the workspace has no member, the handler looks the
    membership up and then makes one generation call with the generic
    instruction and the raw query; the response has no source. *)
Theorem chat_empty_workspace_falls_back (request : ChatRequest)
    (req : Request) (w : World) (e : Embedding) (found : list Match.t) :
  truthy_opt (user_id request) = true ->
  embeddings_create svc "text-embedding-3-small" (query request) = inr e ->
  match_chunks svc (database w) e (35 # 100) 20 = inr found ->
  found <> [] ->
  workspace_members (database w) (workspace_id request) = [] ->
  let r := chat svc request req w in
  calls (fst r) =
    (calls w ++
       [EmbeddingsCreate "text-embedding-3-small" (query request);
        Rpc "match_chunks" e (35 # 100) 20;
        Select "media_workspace_mapping" "media_id"
          (Some ("workspace_id", workspace_id request));
        ChatCompletionsCreate "gpt-4" (fallback_messages (query request))])%list
  /\ (forall a,
        chat_completions_create svc "gpt-4" (fallback_messages (query request))
          = inr a ->
        snd r = inr {| answer := a; context_sources := [] |}).
Proof.
  intros Hu He Hm Hf Hw r. subst r.
  unfold chat, create_embedding, match_documents, complete,
    select_workspace_media.
  run. rewrite Hu. run. rewrite He. run. rewrite Hm. run.
  destruct found as [|c0 found']; [congruence|]. run.
  rewrite map_nonempty.
  fold (workspace_members (database w) (workspace_id request)).
  rewrite Hw. run.
  fold (fallback_messages (query request)).
  destruct (chat_completions_create svc "gpt-4" (fallback_messages (query request)))
    as [err|a]; run; rewrite <- !app_assoc; cbn [app]; repeat split;
    intros ? H; try discriminate; injection H as <-; reflexivity.
Qed.

(** X15: a request without a user identifier is refused before any call
    is made and nothing is changed, but the refusal reaches the caller as a
    500 whose detail is the text of the 401 the handler raised. *)
Theorem chat_without_user_is_500 (request : ChatRequest) (req : Request)
    (w : World) :
  truthy_opt (user_id request) = false ->
  fst (chat svc request req w) = w
  /\ exists detail,
       snd (chat svc request req w) =
       inl (HTTPException 500 (http_exception_str svc 401 detail)).
Proof.
  intros Hu. unfold chat. run. rewrite Hu. run.
  destruct (authorization req) as [h|];
    [destruct (truthy h && startswith h "Bearer ")|];
    run; (split; [reflexivity | eexists; reflexivity]).
Qed.

(** X16: a failure of the embedding service or of the search ends the
    request there: no later call is made, and the caller gets a 500 that
    carries the text of the error. *)
Theorem chat_upstream_failure_stops_the_flow (request : ChatRequest)
    (req : Request) (w : World) :
  truthy_opt (user_id request) = true ->
  let r := chat svc request req w in
  let embed := EmbeddingsCreate "text-embedding-3-small" (query request) in
  (forall err,
     embeddings_create svc "text-embedding-3-small" (query request) = inl err ->
     calls (fst r) = (calls w ++ [embed])%list
     /\ snd r = inl (HTTPException 500 (str svc err)))
  /\ (forall e err,
        embeddings_create svc "text-embedding-3-small" (query request) = inr e ->
        match_chunks svc (database w) e (35 # 100) 20 = inl err ->
        calls (fst r) =
          (calls w ++ [embed; Rpc "match_chunks" e (35 # 100) 20])%list
        /\ snd r = inl (HTTPException 500 (str svc err))).
Proof.
  intros Hu r embed. subst r embed.
  unfold chat, create_embedding, match_documents. run. rewrite Hu. run.
  split.
  - intros err He. rewrite He. run. split; reflexivity.
  - intros e err He Hm. rewrite He. run. rewrite Hm. run.
    rewrite <- !app_assoc. split; reflexivity.
Qed.

End QueryShape.

Section QueryShapeScenarios.
Import Chat Scenario.

(** The question asked of the store that holds the policy: both chunks
    found belong to the one member of the workspace. *)
Lemma chat_sources_at_most_ten_witness :
  exists response,
    snd (chat converting (question default_max_context_chunks) no_headers
           policy_world) = inr response
    /\ (List.length (context_sources response) <= 10)%nat.
Proof.
  eexists. split; [reflexivity|].
  apply (chat_sources_at_most_ten converting
           (question default_max_context_chunks) no_headers policy_world).
  reflexivity.
Defined.

Lemma chat_sources_within_workspace_witness :
  exists response,
    snd (chat converting (question default_max_context_chunks) no_headers
           policy_world) = inr response
    /\ In (cite refund_match) (context_sources response)
    /\ In (MappingRow.make "media-1" "ws-1")
          (media_workspace_mapping (database policy_world)).
Proof.
  eexists. split; [reflexivity|].
  assert (Hin : In (cite refund_match)
                  [cite refund_match; cite shipping_match]) by (left; reflexivity).
  split; [exact Hin|].
  exact (chat_sources_within_workspace converting
           (question default_max_context_chunks) no_headers policy_world
           _ (cite refund_match) eq_refl Hin).
Defined.

Lemma chat_sources_descending_witness :
  exists response,
    snd (chat converting (question default_max_context_chunks) no_headers
           policy_world) = inr response
    /\ Sorted sources_descending (context_sources response).
Proof.
  eexists. split; [reflexivity|].
  apply (chat_sources_descending converting
           (question default_max_context_chunks) no_headers policy_world).
  reflexivity.
Defined.

Lemma chat_grounds_answer_in_top_chunks_witness :
  let request := question default_max_context_chunks in
  let kept := filter_workspace
                (workspace_members (database policy_world) (workspace_id request))
                [refund_match; shipping_match] in
  (truthy_opt (user_id request) = true /\ kept <> [])
  /\ snd (chat converting request no_headers policy_world)
     = inr {| answer := "An answer.";
              context_sources := [cite refund_match; cite shipping_match] |}.
Proof.
  intros request kept. split; [split; [reflexivity | discriminate]|].
  apply (chat_grounds_answer_in_top_chunks converting request no_headers
           policy_world [1 # 1; 0 # 1] [refund_match; shipping_match]);
    try reflexivity.
  discriminate.
Defined.

(** The same question asked where the workspace has no member. *)
Lemma chat_empty_workspace_falls_back_witness :
  let request := question default_max_context_chunks in
  (truthy_opt (user_id request) = true
   /\ [refund_match; shipping_match] <> []
   /\ workspace_members (database empty_world) (workspace_id request) = [])
  /\ snd (chat converting request no_headers empty_world)
     = inr {| answer := "An answer."; context_sources := [] |}.
Proof.
  intros request. split; [repeat split; discriminate|].
  apply (chat_empty_workspace_falls_back converting request no_headers
           empty_world [1 # 1; 0 # 1] [refund_match; shipping_match]);
    try reflexivity.
  discriminate.
Defined.

Lemma chat_without_user_is_500_witness :
  truthy_opt (user_id anonymous) = false
  /\ fst (chat converting anonymous no_headers policy_world) = policy_world
  /\ exists detail,
       snd (chat converting anonymous no_headers policy_world) =
       inl (HTTPException 500 (http_str 401 detail)).
Proof.
  split; [reflexivity|].
  apply (chat_without_user_is_500 converting anonymous no_headers policy_world).
  reflexivity.
Defined.

Lemma chat_upstream_failure_stops_the_flow_witness :
  let request := question default_max_context_chunks in
  truthy_opt (user_id request) = true
  /\ embeddings_create embedding_down "text-embedding-3-small" (query request)
     = inl (ServiceError "rate limit exceeded")
  /\ calls (fst (chat embedding_down request no_headers policy_world))
     = [EmbeddingsCreate "text-embedding-3-small" (query request)]
  /\ snd (chat embedding_down request no_headers policy_world)
     = inl (HTTPException 500 "rate limit exceeded").
Proof.
  intros request. split; [reflexivity|]. split; [reflexivity|].
  exact (proj1 (chat_upstream_failure_stops_the_flow embedding_down request
                  no_headers policy_world eq_refl)
           (ServiceError "rate limit exceeded") eq_refl).
Defined.

End QueryShapeScenarios.

(* ===================================================================== *)
(** * The ingestion flow, continued *)
(* ===================================================================== *)

Section IngestionShape.
Import TextProcessing ProcessChunks.
Context (svc : Services).

(** X17: the document conversion never raises.  A failure of the
    converter is printed and comes back as a document whose [error] is set
    and whose text is empty; a success comes back as the converted text
    with no error.  The store is not touched. *)
Theorem process_document_with_docling_never_raises (file_path : File)
    (file_type : string) (w : World) :
  let r := process_document_with_docling svc file_path file_type w in
  database (fst r) = database w
  /\ storage (fst r) = storage w
  /\ match docling_convert svc (content file_path) (suffix file_path) with
     | inr text =>
         snd r = inr (Doc.make None text [] [] {| headings := []; sections := [] |})
         /\ stdout (fst r) = stdout w
     | inl e =>
         snd r = inr (Doc.make (Some ("Failed to process document: " ++ str svc e))
                        "" [] [] {| headings := []; sections := [] |})
         /\ stdout (fst r) =
            (stdout w
               ++ [("Error processing document with Docling: " ++ str svc e)%string])%list
     end.
Proof.
  unfold process_document_with_docling. run.
  destruct (docling_convert svc _ _); run; repeat split.
Qed.

(** One turn of the storing loop. *)
Lemma store_chunks_cons (media_id : string) (chunk : Chunk.t)
    (rest : list Chunk.t) (results : list ChunkResult) (w : World) :
  store_chunks svc media_id (chunk :: rest) results w =
  match embeddings_create svc "text-embedding-3-small" (Chunk.text chunk) with
  | inl err =>
      (log_call (EmbeddingsCreate "text-embedding-3-small" (Chunk.text chunk)) w,
       inl err)
  | inr e =>
      let row := new_row svc w chunk media_id e in
      store_chunks svc media_id rest (results ++ [result_of_row row])
        (after_insert w row)
  end.
Proof.
  cbn [store_chunks]. unfold create_embedding, insert_chunk. run.
  destruct (embeddings_create svc _ _) as [err|e]; run; [reflexivity|].
  unfold after_insert, new_row, result_of_row.
  cbn [ChunkRow.id ChunkRow.chunk_text]. rewrite <- !app_assoc. reflexivity.
Qed.

(** The storing loop appends one row per chunk it gets through, in order,
    all of the given media, and touches nothing else. *)
Lemma store_chunks_appends (media_id : string) (todo : list Chunk.t) :
  forall results w,
  exists rows l,
    appends_chunks w (fst (store_chunks svc media_id todo results w)) rows
    /\ calls (fst (store_chunks svc media_id todo results w)) = (calls w ++ l)%list
    /\ filter is_temp_call l = []
    /\ stdout (fst (store_chunks svc media_id todo results w)) = stdout w
    /\ Forall (fun row => ChunkRow.media_id row = media_id) rows
    /\ (exists k, map ChunkRow.chunk_text rows = map Chunk.text (firstn k todo))
    /\ (forall res, snd (store_chunks svc media_id todo results w) = inr res ->
        map ChunkRow.chunk_text rows = map Chunk.text todo
        /\ res = (results ++ map result_of_row rows)%list).
Proof.
  induction todo as [|chunk rest IH]; intros results w.
  - exists [], []. simpl. unfold appends_chunks. rewrite !app_nil_r.
    repeat split; trivial.
    + now exists 0%nat.
    + injection H as <-. reflexivity.
  - rewrite store_chunks_cons.
    destruct (embeddings_create svc _ _) as [err|e].
    + exists [], [EmbeddingsCreate "text-embedding-3-small" (Chunk.text chunk)].
      unfold appends_chunks. cbn [fst snd database storage calls stdout log_call].
      rewrite !app_nil_r. repeat split; trivial.
      * now exists 0%nat.
      * discriminate.
      * discriminate.
    + cbv zeta. set (row := new_row svc w chunk media_id e).
      destruct (IH (results ++ [result_of_row row])%list (after_insert w row))
        as [rows [l [Happ [Hcalls [Htemp [Hout [Hmid [[k Hk] Hres]]]]]]]].
      exists (row :: rows),
             (EmbeddingsCreate "text-embedding-3-small" (Chunk.text chunk)
                :: Insert "chunks" :: l).
      destruct Happ as [Hc [Hm [Hmap Hst]]].
      unfold appends_chunks. rewrite Hc, Hm, Hmap, Hst, Hcalls, Hout.
      cbn [after_insert database chunks media media_workspace_mapping storage
           calls stdout].
      rewrite <- !app_assoc. cbn [app].
      repeat split; trivial.
      * now constructor.
      * exists (S k). cbn [firstn map]. now rewrite Hk.
      * cbn [map]. f_equal. now apply Hres in H.
      * apply Hres in H. destruct H as [_ ->].
        rewrite <- app_assoc. reflexivity.
Qed.

(** What a run of [process_chunks] leaves, and what a response tells. *)
Lemma process_chunks_outcome (request : ProcessChunkRequest) (w : World) :
  exists rows l,
    appends_chunks w (fst (process_chunks svc request w)) rows
    /\ calls (fst (process_chunks svc request w)) = (calls w ++ l)%list
    /\ (filter is_temp_call l = []
        \/ filter is_temp_call l =
           [TempFileWrite (file_suffix request); TempFileUnlink])
    /\ (forall resp, snd (process_chunks svc request w) = inr resp ->
        exists content media_row text,
          lookup (fileName request) (storage w) = Some content
          /\ truthy content = true
          /\ hd_error (media_named (database w) (basename (fileName request)))
             = Some media_row
          /\ docling_convert svc content (file_suffix request) = inr text
          /\ map ChunkRow.chunk_text rows =
             map Chunk.text (split_into_chunks text default_chunk_size)
          /\ Forall (fun row => ChunkRow.media_id row = MediaRow.id media_row) rows
          /\ resp = ingested rows).
Proof.
  unfold process_chunks, storage_download, select_media_by_name,
    process_document_with_docling.
  run.
  destruct (truthy (fileName request)); run.
  2: { exists [], []. unfold appends_chunks. rewrite ?app_nil_r, <- ?app_assoc.
       cbn [app].
       repeat split; try reflexivity; try (now left); intros ? H; discriminate H. }
  destruct (lookup (fileName request) (storage w)) as [content|] eqn:Hfile; run.
  2: { exists [], [StorageDownload (fileName request)].
       unfold appends_chunks. rewrite ?app_nil_r, <- ?app_assoc. cbn [app].
       repeat split; try reflexivity; try (now left); intros ? H; discriminate H. }
  destruct (truthy content) eqn:Hcontent; run.
  2: { exists [], [StorageDownload (fileName request)].
       unfold appends_chunks. rewrite ?app_nil_r, <- ?app_assoc. cbn [app].
       repeat split; try reflexivity; try (now left); intros ? H; discriminate H. }
  fold (media_named (database w) (basename (fileName request))).
  destruct (media_named (database w) (basename (fileName request)))
    as [|media_row others] eqn:Hmedia; run.
  { exists [], [StorageDownload (fileName request);
                Select "media" "id, media_type, owner_id"
                  (Some ("name", basename (fileName request)))].
    unfold appends_chunks. rewrite ?app_nil_r, <- ?app_assoc. cbn [app].
    repeat split; try reflexivity; try (now left); intros ? H; discriminate H. }
  cbn [suffix TextProcessing.content]. fold (file_suffix request).
  destruct (docling_convert svc content (file_suffix request)) as [err|text]
    eqn:Hconv; run;
    cbn [Doc.error Doc.text Doc.tables Doc.figures Doc.structure]; run.
  { exists [], [StorageDownload (fileName request);
                Select "media" "id, media_type, owner_id"
                  (Some ("name", basename (fileName request)));
                TempFileWrite (file_suffix request);
                DoclingConvert (file_suffix request);
                TempFileUnlink].
    unfold appends_chunks. rewrite ?app_nil_r, <- ?app_assoc. cbn [app].
    repeat split; try reflexivity; try (now right); intros ? H; discriminate H. }
  match goal with
  | |- context [store_chunks svc ?mid ?todo ?res ?w3] =>
      destruct (store_chunks_appends mid todo res w3)
        as [rows [l [Happ [Hcalls [Htemp [Hout [Hmid [_ Hres]]]]]]]];
      destruct (store_chunks svc mid todo res w3) as [w4 [err|results]] eqn:Hstore
  end; run; cbn [fst snd] in *.
  - exists rows,
      ([StorageDownload (fileName request);
        Select "media" "id, media_type, owner_id"
          (Some ("name", basename (fileName request)));
        TempFileWrite (file_suffix request);
        DoclingConvert (file_suffix request)] ++ l ++ [TempFileUnlink])%list.
    destruct Happ as [Hc [Hm [Hmap Hst]]]. unfold appends_chunks.
    cbn [database storage calls stdout log_call log_print] in *.
    rewrite Hc, Hm, Hmap, Hst, Hcalls, <- ?app_assoc. cbn [app].
    repeat split; trivial.
    + right. cbn [filter is_temp_call]. rewrite filter_app, Htemp. reflexivity.
    + intros ? H; discriminate H.
  - exists rows,
      ([StorageDownload (fileName request);
        Select "media" "id, media_type, owner_id"
          (Some ("name", basename (fileName request)));
        TempFileWrite (file_suffix request);
        DoclingConvert (file_suffix request)] ++ l ++ [TempFileUnlink])%list.
    destruct Happ as [Hc [Hm [Hmap Hst]]]. unfold appends_chunks.
    cbn [database storage calls stdout log_call log_print] in *.
    rewrite Hc, Hm, Hmap, Hst, Hcalls, <- ?app_assoc. cbn [app].
    repeat split; trivial.
    + right. cbn [filter is_temp_call]. rewrite filter_app, Htemp. reflexivity.
    + intros resp H. injection H as <-.
      destruct (Hres results eq_refl) as [Htexts ->].
      exists content, media_row, text. cbn [hd_error].
      repeat split; trivial.
      unfold ingested. cbn [app]. now rewrite length_map.
Qed.


(** X19: a successful ingestion stores every chunk.  The response exists
    only if the file and its media record were found and the converter
    returned a text; the rows added to the [chunks] table are then the
    chunks of that text under the default chunk size, in order, each under
    the identifier of the media record, and the response counts and lists
    exactly these rows. *)
Theorem process_chunks_stores_every_chunk (request : ProcessChunkRequest)
    (w : World) (resp : Response.t) :
  snd (process_chunks svc request w) = inr resp ->
  exists content media_row text rows,
    lookup (fileName request) (storage w) = Some content
    /\ hd_error (media_named (database w) (basename (fileName request)))
       = Some media_row
    /\ docling_convert svc content (file_suffix request) = inr text
    /\ appends_chunks w (fst (process_chunks svc request w)) rows
    /\ map ChunkRow.chunk_text rows =
       map Chunk.text (split_into_chunks text default_chunk_size)
    /\ Forall (fun row => ChunkRow.media_id row = MediaRow.id media_row) rows
    /\ Response.success resp = true
    /\ Response.chunks resp = Z.of_nat (List.length rows)
    /\ map chunkId (Response.results resp) = map ChunkRow.id rows.
Proof.
  intros H.
  destruct (process_chunks_outcome request w) as [rows [l [Happ [_ [_ Hres]]]]].
  destruct (Hres resp H)
    as [content [media_row [text [Hfile [_ [Hmedia [Hconv [Htexts [Hmid ->]]]]]]]]].
  exists content, media_row, text, rows.
  repeat split; trivial; try apply Happ.
  unfold ingested. cbn [Response.results]. now rewrite map_map.
Qed.

(** X20: the temporary file never outlives the request.  Among the calls
    of a run there is either no temporary file at all, or one written and
    then, whatever happened in between, unlinked. *)
Theorem process_chunks_unlinks_temp_file (request : ProcessChunkRequest)
    (w : World) :
  exists l,
    calls (fst (process_chunks svc request w)) = (calls w ++ l)%list
    /\ (filter is_temp_call l = []
        \/ filter is_temp_call l =
           [TempFileWrite (file_suffix request); TempFileUnlink]).
Proof.
  destruct (process_chunks_outcome request w) as [rows [l [_ [Hcalls [Htemp _]]]]].
  now exists l.
Qed.

End IngestionShape.

Section UploadShape.
Import TextProcessing ProcessChunks.
Context (svc : Services).

Lemma lookup_app_new (path content : string) (st : list (string * string)) :
  lookup path st = None ->
  lookup path (st ++ [(path, content)]) = Some content.
Proof.
  induction st as [|[p c] st IH]; simpl; intros H.
  - now rewrite String.eqb_refl.
  - destruct (String.eqb p path); [discriminate | now apply IH].
Qed.

(** X21: what a successful upload leaves.  The path returned is
    ["uploads/"], a fresh identifier and the extension of the file name; no
    object was at that path, and now the uploaded content is; the media
    table has one more row, named by the base name of the path and carrying
    the returned media identifier, the owner and the original name; the
    mapping table has one more row that makes the media a member of the
    workspace; no chunk is written. *)
Theorem upload_file_stores_file_and_rows (background_tasks : BackgroundTasks)
    (file : UploadFile) (owner_id workspace_id : string) (w w' : World)
    (tasks' : BackgroundTasks) (result : UploadResult) :
  upload_file svc background_tasks file owner_id workspace_id w =
    (w', inr (tasks', result)) ->
  let unique_filename := uuid4 svc (drawn w) ++ splitext_ext (filename file) in
  let row := MediaRow.make (uuid4 svc (S (drawn w))) unique_filename
               (filename file) "file" owner_id ("uploads/" ++ unique_filename) in
  result = {| upload_success := true;
              upload_fileName := "uploads/" ++ unique_filename;
              upload_mediaId := MediaRow.id row |}
  /\ lookup (upload_fileName result) (storage w) = None
  /\ lookup (upload_fileName result) (storage w') = Some (body file)
  /\ media (database w') = (media (database w) ++ [row])%list
  /\ media_workspace_mapping (database w') =
     (media_workspace_mapping (database w)
        ++ [MappingRow.make (upload_mediaId result) workspace_id])%list
  /\ chunks (database w') = chunks (database w).
Proof.
  intros Hup. unfold upload_file, storage_upload, insert_media, insert_mapping in Hup.
  revert Hup. run.
  destruct (truthy owner_id); run; [|intros H; discriminate H].
  destruct (lookup _ (storage w)) eqn:Hfree; run; [intros H; discriminate H|].
  intros Hup. injection Hup as <- _ <-. cbn.
  repeat split; trivial. now apply lookup_app_new.
Qed.

Lemma has_char_app (c : ascii) (a b : string) :
  has_char c (a ++ b) = has_char c a || has_char c b.
Proof.
  induction a as [|x a IH]; simpl; [reflexivity|].
  now rewrite IH, orb_assoc.
Qed.

Lemma split_free (sep : ascii) (s : string) :
  has_char sep s = false -> split sep s = [s].
Proof.
  induction s as [|x r IH]; simpl; intros H; [reflexivity|].
  apply orb_false_iff in H. destruct H as [Hx Hr].
  rewrite Hx, (IH Hr). reflexivity.
Qed.

(** The pieces of a string hold no character the string does not hold. *)
Lemma split_pieces_free (sep c : ascii) (s : string) :
  has_char c s = false ->
  Forall (fun p => has_char c p = false) (split sep s).
Proof.
  induction s as [|x r IH]; simpl; intros H.
  - now repeat constructor.
  - apply orb_false_iff in H. destruct H as [Hx Hr]. specialize (IH Hr).
    destruct (Ascii.eqb x sep).
    + now constructor.
    + destruct (split sep r) as [|p ps];
        [constructor; [simpl; now rewrite Hx | constructor]|].
      inversion IH as [|? ? Hp Hps]; subst. constructor; trivial.
      simpl. now rewrite Hx, Hp.
Qed.

(** The pieces of a string hold no separator. *)
Lemma split_pieces_sep_free (sep : ascii) (s : string) :
  Forall (fun p => has_char sep p = false) (split sep s).
Proof.
  induction s as [|x r IH]; simpl.
  - now repeat constructor.
  - destruct (Ascii.eqb x sep) eqn:Hx.
    + now constructor.
    + destruct (split sep r) as [|p ps];
        [constructor; [simpl; now rewrite Hx | constructor]|].
      inversion IH as [|? ? Hp Hps]; subst. constructor; trivial.
      simpl. now rewrite Hx, Hp.
Qed.

Lemma Forall_last {A : Type} (P : A -> Prop) (l : list A) (d : A) :
  Forall P l -> P d -> P (last l d).
Proof.
  induction 1 as [|x l Hx Hl IH]; intros Hd; simpl; [exact Hd|].
  destruct l; [exact Hx | now apply IH].
Qed.

Lemma basename_free (p : string) : has_char "/" (basename p) = false.
Proof.
  unfold basename. apply Forall_last; [apply split_pieces_sep_free | reflexivity].
Qed.

Lemma splitext_ext_free (p : string) : has_char "/" (splitext_ext p) = false.
Proof.
  unfold splitext_ext. destruct (existsb truthy _); [|reflexivity].
  rewrite has_char_app. simpl.
  apply Forall_last; [|reflexivity].
  apply split_pieces_free, basename_free.
Qed.

Lemma split_cons_sep (sep : ascii) (a b : string) :
  has_char sep a = false ->
  split sep (a ++ String sep b) = a :: split sep b.
Proof.
  induction a as [|x a IH]; simpl; intros H.
  - now rewrite Ascii.eqb_refl.
  - apply orb_false_iff in H. destruct H as [Hx Ha].
    rewrite Hx, (IH Ha). reflexivity.
Qed.

(** The base name of a path under ["uploads/"] is what follows, when that
    holds no slash. *)
Lemma basename_uploads (name : string) :
  has_char "/" name = false -> basename ("uploads/" ++ name) = name.
Proof.
  intros H. unfold basename.
  change ("uploads/" ++ name) with ("uploads" ++ String "/" name).
  rewrite split_cons_sep by reflexivity. rewrite (split_free "/" name H).
  reflexivity.
Qed.

(** X22: what the upload writes is what the ingestion looks for.  After a
    successful upload, provided the identifier drawn for the file holds no
    slash, the request the background task builds from the returned path
    has a non-empty file name, finds the uploaded content at that path, and
    finds by the base name of the path a media record that carries the
    returned media identifier. *)
Theorem uploaded_file_is_found_by_process_chunks
    (background_tasks : BackgroundTasks) (file : UploadFile)
    (owner_id workspace_id : string) (w w' : World)
    (tasks' : BackgroundTasks) (result : UploadResult) :
  upload_file svc background_tasks file owner_id workspace_id w =
    (w', inr (tasks', result)) ->
  has_char "/" (uuid4 svc (drawn w)) = false ->
  let request := {| fileName := upload_fileName result |} in
  truthy (fileName request) = true
  /\ lookup (fileName request) (storage w') = Some (body file)
  /\ exists row,
       In row (media_named (database w') (basename (fileName request)))
       /\ MediaRow.id row = upload_mediaId result.
Proof.
  intros Hup Huuid request. subst request.
  unfold upload_file, storage_upload, insert_media, insert_mapping in Hup.
  revert Hup. run.
  destruct (truthy owner_id); run; [|intros H; discriminate H].
  destruct (lookup _ (storage w)) eqn:Hfree; run; [intros H; discriminate H|].
  intros Hup. injection Hup as <- _ <-.
  cbn [fileName upload_fileName upload_mediaId database storage media].
  split; [reflexivity|]. split; [now apply lookup_app_new|].
  assert (Hb : basename ("uploads/" ++ uuid4 svc (drawn w)
                           ++ splitext_ext (filename file))
               = uuid4 svc (drawn w) ++ splitext_ext (filename file)).
  { apply basename_uploads.
    rewrite has_char_app, Huuid, splitext_ext_free. reflexivity. }
  cbn [append] in Hb. cbn [append]. rewrite Hb.
  eexists. split.
  - unfold media_named. cbn [database set_database media].
    rewrite filter_app. apply in_or_app. right.
    cbn [filter MediaRow.name]. rewrite String.eqb_refl. now left.
  - reflexivity.
Qed.

End UploadShape.

(* ===================================================================== *)
(** * Reading and deleting what was ingested *)
(* ===================================================================== *)

Section Maintenance.
Import TextProcessing ProcessChunks.
Context (svc : Services).

(** [get_chunks] never fails: it returns the rows of the media, in the
    order of the table. *)
Lemma get_chunks_run (media_id : string) (w : World) :
  get_chunks svc media_id w =
  (log_call (Select "chunks" "*" (Some ("media_id", media_id))) w,
   inr (map processed_chunk
          (filter (fun r => String.eqb (ChunkRow.media_id r) media_id)
             (chunks (database w))))).
Proof.
  unfold get_chunks, select_chunks_by_media. run.
  destruct (filter _ (chunks (database w))); reflexivity.
Qed.

(** X23: what is ingested is read back.  After a successful ingestion,
    [get_chunks] on the media of the file returns what it returned before
    followed by new entries, whose texts are the chunks of the converted
    text, in order, and whose identifiers are those the response listed. *)
Theorem ingested_chunks_are_read_back (request : ProcessChunkRequest)
    (w : World) (resp : Response.t) :
  snd (process_chunks svc request w) = inr resp ->
  exists media_row content text before new,
    hd_error (media_named (database w) (basename (fileName request)))
      = Some media_row
    /\ lookup (fileName request) (storage w) = Some content
    /\ docling_convert svc content (file_suffix request) = inr text
    /\ snd (get_chunks svc (MediaRow.id media_row) w) = inr before
    /\ snd (get_chunks svc (MediaRow.id media_row)
             (fst (process_chunks svc request w))) = inr (before ++ new)%list
    /\ map Processed.text new =
       map Chunk.text (split_into_chunks text default_chunk_size)
    /\ map Processed.id new = map chunkId (Response.results resp).
Proof.
  intros H.
  destruct (process_chunks_outcome svc request w)
    as [rows [l [[Hc _] [_ [_ Hres]]]]].
  destruct (Hres resp H)
    as [content [media_row [text [Hfile [_ [Hmedia [Hconv [Htexts [Hmid ->]]]]]]]]].
  exists media_row, content, text.
  eexists. exists (map processed_chunk rows).
  rewrite !get_chunks_run. cbn [snd]. rewrite Hc, filter_app, map_app.
  rewrite (filter_all _ rows).
  - repeat split; trivial.
    + rewrite map_map. exact Htexts.
    + unfold ingested. cbn [Response.results]. now rewrite !map_map.
  - rewrite Forall_forall in Hmid. intros row Hrow.
    rewrite (Hmid row Hrow). apply String.eqb_refl.
Qed.



(** X25: deleting a media that does not exist deletes nothing: the
    database and the bucket are as before, and the caller gets a 500, not
    a 404. *)
Theorem delete_media_unknown_is_500 (media_id : string) (w : World) :
  (forall row, In row (media (database w)) -> MediaRow.id row <> media_id) ->
  database (fst (delete_media svc media_id w)) = database w
  /\ storage (fst (delete_media svc media_id w)) = storage w
  /\ exists detail,
       snd (delete_media svc media_id w) = inl (HTTPException 500 detail).
Proof.
  intros Hnone.
  unfold delete_media, select_media_single. run.
  rewrite filter_none.
  - run. repeat split. eexists. reflexivity.
  - intros row Hin. apply String.eqb_neq. now apply Hnone.
Qed.

End Maintenance.

(* ===================================================================== *)
(** * Batch embedding, and how the handlers fail *)
(* ===================================================================== *)

Section Batch.
Import TextProcessing Embeddings.
Context (svc : Services).

(** The loop succeeds exactly when every text it is given embeds, and then
    extends its list by the embeddings, in the order of the texts. *)
Lemma embed_all_run (texts : list string) :
  forall embeddings w res,
    snd (embed_all svc texts embeddings w) = inr res <->
    exists more,
      Forall2 (fun text e =>
                 embeddings_create svc "text-embedding-3-small" text = inr e)
        texts more
      /\ res = (embeddings ++ more)%list.
Proof.
  induction texts as [|text rest IH]; intros embeddings w res; cbn [embed_all].
  - run. split.
    + intros H. injection H as <-. exists []. split; [constructor|].
      now rewrite app_nil_r.
    + intros [more [Hall ->]]. inversion Hall. now rewrite app_nil_r.
  - unfold create_embedding. run.
    destruct (embeddings_create svc _ text) as [err|e] eqn:He; run.
    + split; [intros H; discriminate H|].
      intros [more [Hall _]]. inversion Hall; subst. congruence.
    + rewrite IH. split.
      * intros [more [Hall ->]]. exists (e :: more).
        split; [now constructor | now rewrite <- app_assoc].
      * intros [more [Hall ->]]. inversion Hall as [|? e' ? more' He' Hall']; subst.
        exists more'. split; trivial.
        rewrite He in He'. injection He' as <-. now rewrite <- app_assoc.
Qed.

(** X26: the batch endpoint answers exactly when every text embeds, and
    its answer then holds one embedding per text, in the order of the
    texts, each the one the embedding service gives for that text; if any
    text fails to embed there is no answer at all. *)
Theorem batch_embed_text_embeds_each_text (texts : list string) (w : World)
    (result : BatchResult) :
  snd (batch_embed_text svc texts w) = inr result <->
  Forall2 (fun text e =>
             embeddings_create svc "text-embedding-3-small" text = inr e)
    texts (batch_embeddings result)
  /\ batch_success result = true.
Proof.
  unfold batch_embed_text. run.
  pose proof (embed_all_run texts [] w) as Hrun.
  destruct (embed_all svc texts [] w) as [w' [err|embs]]; cbn [snd] in *.
  - split; [intros H; discriminate H|].
    intros [Hall _]. specialize (Hrun (batch_embeddings result)).
    destruct Hrun as [_ Hrun].
    assert (Hc : @inl exn (list Embedding) err = inr (batch_embeddings result)).
    { apply Hrun. now exists (batch_embeddings result). }
    discriminate Hc.
  - split.
    + intros H. injection H as <-. cbn [batch_embeddings batch_success].
      split; [|reflexivity].
      destruct (proj1 (Hrun embs) eq_refl) as [more [Hall ->]]. exact Hall.
    + intros [Hall Hs]. destruct result as [s embs']. simpl in *. subst s.
      destruct (proj1 (Hrun embs) eq_refl) as [more [Hall' Heq]].
      simpl in Heq. subst embs. f_equal. f_equal.
      clear Hrun. revert embs' Hall. induction Hall'; intros embs' Hall;
        inversion Hall; subst; [reflexivity|].
      f_equal; [congruence | now apply IHHall'].
Qed.

End Batch.

Section Failures.
Import TextProcessing.
Context (svc : Services).

(** A handler wrapped in the catch-all clause fails only with the 500 the
    clause raises. *)
Lemma catch_all_500 {A : Type} (m : M A) (w : World) (e : exn) :
  snd (try_except m (fun e => raise (HTTPException 500 (str svc e))) w) = inl e ->
  exists detail, e = HTTPException 500 detail.
Proof.
  unfold try_except, raise. destruct (m w) as [w' [e'|a]]; simpl; intros H.
  - injection H as <-. eexists. reflexivity.
  - discriminate H.
Qed.

(** X27: every failure of every handler reaches the caller as an
    [HTTPException] of status 500: the outermost [except Exception] clause
    of each handler catches what the handler raised, its own 400, 401 and
    404 included, and raises a 500 in its place. *)
Theorem handlers_fail_only_with_500 (np : Embeddings.Numpy) (e : exn)
    (w : World) :
  (forall request req,
     snd (Chat.chat svc request req w) = inl e ->
     exists detail, e = HTTPException 500 detail)
  /\ (forall request,
        snd (ProcessChunks.process_chunks svc request w) = inl e ->
        exists detail, e = HTTPException 500 detail)
  /\ (forall tasks file owner_id workspace_id,
        snd (ProcessChunks.upload_file svc tasks file owner_id workspace_id w)
          = inl e ->
        exists detail, e = HTTPException 500 detail)
  /\ (forall media_id,
        snd (ProcessChunks.delete_media svc media_id w) = inl e ->
        exists detail, e = HTTPException 500 detail)
  /\ (forall q,
        snd (Embeddings.search_embeddings svc np q w) = inl e ->
        exists detail, e = HTTPException 500 detail)
  /\ (forall texts,
        snd (Embeddings.batch_embed_text svc texts w) = inl e ->
        exists detail, e = HTTPException 500 detail).
Proof.
  repeat split; intros; try (eapply catch_all_500; eassumption).
  revert H. unfold ProcessChunks.upload_file, try_except.
  match goal with
  | |- context [match ?m w with _ => _ end] => destruct (m w) as [w' [e'|a]]
  end; run; intros H.
  - injection H as <-. eexists. reflexivity.
  - discriminate H.
Qed.

End Failures.

Section IngestionShapeScenarios.
Import TextProcessing ProcessChunks Scenario.

(** The policy ingested into the store that holds its file and record. *)
Lemma process_chunks_stores_every_chunk_witness :
  exists resp rows,
    snd (process_chunks converting policy_request policy_world) = inr resp
    /\ appends_chunks policy_world
         (fst (process_chunks converting policy_request policy_world)) rows
    /\ map ChunkRow.chunk_text rows =
       map Chunk.text (split_into_chunks policy_text default_chunk_size)
    /\ Response.chunks resp = Z.of_nat (List.length rows).
Proof.
  eexists.
  destruct (process_chunks_stores_every_chunk converting policy_request
              policy_world _ eq_refl)
    as [content [media_row [text [rows [_ [_ [Hconv [Happ [Htexts [_ [_ [Hn _]]]]]]]]]]]].
  exists rows. injection Hconv as <-.
  split; [reflexivity|]. split; [exact Happ|]. split; [exact Htexts | exact Hn].
Defined.

Lemma upload_file_stores_file_and_rows_witness :
  let w' := fst good_upload_run in
  let result := upload_result good_upload_run in
  good_upload_run = (w', inr (registered_tasks good_upload_run, result))
  /\ upload_fileName result = "uploads/uuid-0.PDF"
  /\ lookup "uploads/uuid-0.PDF" (storage w') = Some "%PDF"
  /\ media_workspace_mapping (database w') = [MappingRow.make "uuid-1" "ws-1"].
Proof.
  intros w' result.
  assert (Hup : good_upload_run
                = (w', inr (registered_tasks good_upload_run, result)))
    by reflexivity.
  destruct (upload_file_stores_file_and_rows converting [] report "owner-1"
              "ws-1" empty_world w' (registered_tasks good_upload_run) result Hup)
    as [Hresult [_ [Hfile [_ [Hmap _]]]]].
  split; [exact Hup|]. split; [reflexivity|]. split; [exact Hfile | exact Hmap].
Defined.

Lemma uploaded_file_is_found_by_process_chunks_witness :
  let w' := fst good_upload_run in
  let result := upload_result good_upload_run in
  (good_upload_run = (w', inr (registered_tasks good_upload_run, result))
   /\ has_char "/" (uuid4 converting (drawn empty_world)) = false)
  /\ lookup (upload_fileName result) (storage w') = Some "%PDF"
  /\ exists row,
       In row (media_named (database w') (basename (upload_fileName result)))
       /\ MediaRow.id row = upload_mediaId result.
Proof.
  intros w' result.
  assert (Hup : good_upload_run
                = (w', inr (registered_tasks good_upload_run, result)))
    by reflexivity.
  assert (Hid : has_char "/" (uuid4 converting (drawn empty_world)) = false)
    by reflexivity.
  split; [split; assumption|].
  exact (proj2 (uploaded_file_is_found_by_process_chunks converting [] report
                  "owner-1" "ws-1" empty_world w'
                  (registered_tasks good_upload_run) result Hup Hid)).
Defined.

(** The chunk the store held for the policy comes first, the chunk just
    ingested after it. *)
Lemma ingested_chunks_are_read_back_witness :
  exists resp,
    snd (process_chunks converting policy_request policy_world) = inr resp
    /\ exists before new,
         snd (get_chunks converting "media-1" policy_world) = inr before
         /\ snd (get_chunks converting "media-1"
                  (fst (process_chunks converting policy_request policy_world)))
            = inr (before ++ new)%list
         /\ map Processed.text new =
            map Chunk.text (split_into_chunks policy_text default_chunk_size).
Proof.
  eexists. split; [reflexivity|].
  destruct (ingested_chunks_are_read_back converting policy_request
              policy_world _ eq_refl)
    as [media_row [content [text [before [new
         [Hmedia [_ [Hconv [Hbefore [Hafter [Htexts _]]]]]]]]]]].
  injection Hmedia as <-. injection Hconv as <-.
  exists before, new. split; [exact Hbefore|]. split; [exact Hafter | exact Htexts].
Defined.


Lemma delete_media_unknown_is_500_witness :
  (forall row, In row (media (database policy_world)) ->
     MediaRow.id row <> "media-9")
  /\ database (fst (delete_media converting "media-9" policy_world))
     = database policy_world
  /\ exists detail,
       snd (delete_media converting "media-9" policy_world)
       = inl (HTTPException 500 detail).
Proof.
  assert (Hnone : forall row, In row (media (database policy_world)) ->
                    MediaRow.id row <> "media-9").
  { intros row [<-|[]]. discriminate. }
  split; [exact Hnone|].
  destruct (delete_media_unknown_is_500 converting "media-9" policy_world Hnone)
    as [Hdb [_ Hfail]].
  split; [exact Hdb | exact Hfail].
Defined.

(** Two texts embedded by the batch endpoint. *)
Lemma batch_embed_text_embeds_each_text_witness :
  exists result,
    snd (Embeddings.batch_embed_text converting ["one"; "two"] empty_world)
      = inr result
    /\ Forall2 (fun text e =>
                  embeddings_create converting "text-embedding-3-small" text
                  = inr e)
         ["one"; "two"] (Embeddings.batch_embeddings result).
Proof.
  eexists. split; [reflexivity|].
  exact (proj1 (proj1 (batch_embed_text_embeds_each_text converting
                         ["one"; "two"] empty_world _) eq_refl)).
Defined.

(** The 404 of a missing file, as the caller of [process_chunks] gets it. *)
Lemma handlers_fail_only_with_500_witness :
  let e := HTTPException 500 "404: Failed to download file: Object not found" in
  snd (process_chunks converting {| fileName := "uploads/missing.pdf" |}
         empty_world) = inl e
  /\ exists detail, e = HTTPException 500 detail.
Proof.
  intros e. split; [reflexivity|].
  exact (proj1 (proj2 (handlers_fail_only_with_500 converting
                         rational_numpy e empty_world))
           {| fileName := "uploads/missing.pdf" |} eq_refl).
Defined.

End IngestionShapeScenarios.
